(** * PyQ build orchestrator ([setup.py]): discovery, configuration, builders

    A shallow embedding of the discovery functions of [setup.py]
    ([get_q_home], [get_q_os_letter], [get_q_arch], [get_q_version],
    [get_python_dll]), of the [Config] command, of the option handling of the
    [BuildQExt] and [BuildExe] commands and of the mode fix of [InstallExe].

    Python values are modelled as follows.
    - [str] and [bytes] are [string] (a sequence of 8-bit characters);
      [decode] is the identity on them.
    - [None]-or-value attributes are [option]s; Python truthiness is written
      out ([truthy]).
    - [os.environ] and the text files on disk are finite maps ([gmap]) keyed
      by name.
    - An exception is the left injection of a sum: [inl e] is "raises [e]",
      [inr v] is "returns [v]".
    - What the interpreter and the operating system provide ([platform.system],
      [sys.maxsize], [os.path.join], [os.path.isdir], the standard output of
      an external tool) is a field of the records [Host] and [Disk] or an
      argument. *)

From Stdlib Require Import ZArith Ascii.
From stdpp Require Import base option list strings gmap pretty.

Local Open Scope Z_scope.

(** ** Exceptions *)

Inductive PyError : Type :=
| RuntimeError (msg : string)
| KeyError (key : string)
| IndexError
| TypeError
| AttributeError
| IOError (path : string)
| UnicodeDecodeError.

Definition Result (A : Type) : Type := PyError + A.

Definition ret {A} (v : A) : Result A := inr v.
Definition raise {A} (e : PyError) : Result A := inl e.
Definition bind {A B} (m : Result A) (k : A -> Result B) : Result B :=
  match m with
  | inl e => inl e
  | inr v => k v
  end.

Notation "'let*' x ':=' m 'in' k" := (bind m (fun x => k))
  (at level 10, x name, m at level 100, k at level 200).

(** ** Strings the way Python handles them *)

Definition dquote : string := String "034"%char "".
Definition newline : ascii := "010"%char.
Definition carriage_return : ascii := "013"%char.

(** [s.startswith(p)] *)
Definition startswith (s p : string) : bool := String.prefix p s.

(** [sub in s] *)
Fixpoint contains (sub s : string) : bool :=
  String.prefix sub s ||
  match s with
  | "" => false
  | String _ s' => contains sub s'
  end.

(** [s[i:j]] for [0 <= i <= j]; out-of-range bounds are clipped. *)
Definition slice (i j : nat) (s : string) : string :=
  String.substring i (j - i) s.

(** [s[0]] *)
Definition first_char (s : string) : Result string :=
  match s with
  | "" => raise IndexError
  | String c _ => ret (String c "")
  end.

(** A text file as the file object gives it to [for line in f]: the lines
    it yields, each with its line end as it is read, and the exception that
    ends the iteration before the end of the file, if there is one (the
    UnicodeDecodeError of bytes that do not decode).  Which bytes decode, and
    how far the file object reads ahead before it yields a line, is the
    interpreter's business. *)
Record TextFile : Type := {
  text_lines : list string;
  text_error : option PyError
}.

(** The lines of a decoded text as a text-mode file of Python 3 yields
    them: a line ends at LF, at CR or at CR LF, and each of these line ends
    is read as LF. *)
Fixpoint universal_lines (s : string) : list string :=
  match s with
  | "" => []
  | String c s' =>
      if Ascii.eqb c newline then String newline "" :: universal_lines s'
      else if Ascii.eqb c carriage_return then
        match s' with
        | String c' s'' =>
            if Ascii.eqb c' newline
            then String newline "" :: universal_lines s''
            else String newline "" :: universal_lines s'
        | "" => [String newline ""]
        end
      else match universal_lines s' with
           | [] => [String c ""]
           | l :: ls => String c l :: ls
           end
  end.

(** A file whose content decodes to the given text. *)
Definition text_file (text : string) : TextFile :=
  {| text_lines := universal_lines text; text_error := None |}.

(** [bytes.splitlines()]: lines end at LF, CR or CR LF; line ends dropped. *)
Fixpoint splitlines (s : string) : list string :=
  match s with
  | "" => []
  | String c s' =>
      if Ascii.eqb c newline then "" :: splitlines s'
      else if Ascii.eqb c carriage_return then
        match s' with
        | String c' s'' =>
            if Ascii.eqb c' newline then "" :: splitlines s''
            else "" :: splitlines s'
        | "" => [""]
        end
      else match splitlines s' with
           | [] => [String c ""]
           | l :: ls => String c l :: ls
           end
  end.

(** [s.split()]: the maximal runs of non-whitespace characters. *)
Definition split_ws (s : string) : list string := String.words s.

(** [s.split(sep)] for a one-character separator. *)
Fixpoint split_on (sep : ascii) (s : string) : list string :=
  match s with
  | "" => [""]
  | String c s' =>
      if Ascii.eqb c sep then "" :: split_on sep s'
      else match split_on sep s' with
           | [] => [String c ""]
           | l :: ls => String c l :: ls
           end
  end.

(** [s.replace(old, new)] for a non-empty [old]: [skip] counts the
    characters of a match that are still to be passed over. *)
Fixpoint replace_go (old new : string) (skip : nat) (s : string) : string :=
  match s with
  | "" => ""
  | String c s' =>
      match skip with
      | S k => replace_go old new k s'
      | O =>
          if String.prefix old s
          then new +:+ replace_go old new (String.length old - 1) s'
          else String c (replace_go old new O s')
      end
  end.

Definition replace (old new s : string) : string := replace_go old new O s.

(** [l[i]] and [l[-1]] *)
Definition index {A} (l : list A) (i : nat) : Result A :=
  match l !! i with
  | Some x => ret x
  | None => raise IndexError
  end.

Definition index_last {A} (l : list A) : Result A :=
  match last l with
  | Some x => ret x
  | None => raise IndexError
  end.

(** Truth value of [env.get(v)]: [None] and the empty string are false. *)
Definition truthy (o : option string) : option string :=
  match o with
  | Some s => if String.eqb s "" then None else Some s
  | None => None
  end.

(** [int.bit_length()] *)
Definition bit_length (x : Z) : Z :=
  if x =? 0 then 0 else Z.log2 (Z.abs x) + 1.

(** ** The host and its disk *)

Record Host : Type := {
  system : string;                            (* platform.system() *)
  machine : string;                           (* platform.machine() *)
  maxsize : Z;                                (* sys.maxsize *)
  version_info : nat * nat;                   (* sys.version_info[:2] *)
  py_version : string;                        (* sys.version *)
  executable : string;                        (* sys.executable *)
  os_name : string;                           (* os.name *)
  path_join : string -> string -> string;     (* os.path.join *)
  path_dirname : string -> string             (* os.path.dirname *)
}.

Record Disk : Type := {
  isdir : string -> bool;                     (* os.path.isdir *)
  files : gmap string TextFile                (* text files by path *)
}.

(** [WINDOWS = platform.system() == 'Windows'] *)
Definition WINDOWS (h : Host) : bool := String.eqb (system h) "Windows".

(** [posixpath.join] of two components. *)
Definition posix_join (a b : string) : string :=
  if startswith b "/" then b
  else if String.eqb a "" || startswith (String.rev a) "/" then a +:+ b
  else a +:+ "/" +:+ b.

(** ** Platform identity *)

Definition unknown_platform (sysname mach : string) : string :=
  dquote +:+ "Unknown platform: " +:+ sysname +:+ " " +:+ mach +:+ ".".

Definition get_q_os_letter (sysname mach : string) : Result string :=
  if String.eqb sysname "Linux" then ret "l"
  else if String.eqb sysname "SunOS" then
    ret (if String.eqb mach "i86pc" then "v" else "s")
  else if String.eqb sysname "Darwin" then ret "m"
  else if String.eqb sysname "Windows" then ret "w"
  else raise (RuntimeError (unknown_platform sysname mach)).

Definition get_q_arch (h : Host) (d : Disk) (q_home : string) : Result string :=
  let bits := bit_length (maxsize h + 1) in
  let sysname := system h in
  let mach := machine h in
  let* os_letter := get_q_os_letter sysname mach in
  let bits :=
    if bits =? 64 then
      let x64dir := path_join h q_home (os_letter +:+ "64") in
      if negb (isdir d x64dir) then 32 else bits
    else bits in
  ret (os_letter +:+ pretty bits).

(** ** Runtime home *)

Definition no_suitable_qhome : PyError := RuntimeError "No suitable QHOME.".

(** The loop [for v in [...]] of [get_q_home]: the first accepted
    candidate, if any. *)
Fixpoint prefix_candidates (h : Host) (d : Disk) (env : gmap string string)
    (vs : list string) : option string :=
  match vs with
  | [] => None
  | v :: vs' =>
      match truthy (env !! v) with
      | Some prefix =>
          let q_home := path_join h prefix "q" in
          if isdir d q_home then Some q_home
          else prefix_candidates h d env vs'
      | None => prefix_candidates h d env vs'
      end
  end.

Definition get_q_home (h : Host) (d : Disk) (env : gmap string string)
    : Result string :=
  match truthy (env !! "QHOME") with
  | Some q_home => ret q_home
  | None =>
      match prefix_candidates h d env ["VIRTUAL_ENV"; "HOME"] with
      | Some q_home => ret q_home
      | None =>
          if WINDOWS h then
            match env !! "SystemDrive" with
            | None => raise (KeyError "SystemDrive")
            | Some drive =>
                let q_home := path_join h drive "\q" in
                if isdir d q_home then ret q_home
                else raise no_suitable_qhome
            end
          else raise no_suitable_qhome
      end
  end.

(** ** Runtime version *)

(** The loop [for line in f] of [get_q_version] and the [return] after
    it: [failure] is the exception that the file raises once [lines] have
    been yielded, if it raises one. *)
Fixpoint scan_version (lines : list string) (failure : option PyError)
    : Result string :=
  match lines with
  | [] =>
      match failure with
      | Some e => raise e
      | None => ret "2.2"
      end
  | line :: rest =>
      if startswith line "k:" then ret (slice 2 5 line)
      else scan_version rest failure
  end.

Definition get_q_version (h : Host) (d : Disk) (q_home : string)
    : Result string :=
  let path := path_join h q_home "q.k" in
  match files d !! path with
  | None => raise (IOError path)
  | Some f => scan_version (text_lines f) (text_error f)
  end.

(** ** Host library *)

(** An external tool is its standard output: [subprocess.check_output]. *)
Definition Tool : Type := list string -> string.

Definition no_python_dll : PyError := RuntimeError "no python dll".

(** [libpython{}.{}] and [python{}{}.dll] for [sys.version_info[:2]] *)
Definition libpython_name (v : nat * nat) : string :=
  "libpython" +:+ pretty (fst v) +:+ "." +:+ pretty (snd v).

Definition python_dll_name (v : nat * nat) : string :=
  "python" +:+ pretty (fst v) +:+ pretty (snd v) +:+ ".dll".

(** The first line that holds the fragment, as the loops
    [for line in output.splitlines(): if fragment in line] find it. *)
Definition matching_line (fragment output : string) : option string :=
  List.find (contains fragment) (splitlines output).

(** [get_python_dll] gives the commands it ran, in order, and its result. *)
Definition get_python_dll (h : Host) (check_output : Tool)
    (executable : string) : list (list string) * Result string :=
  let sysname := system h in
  if startswith sysname "Linux" || startswith sysname "SunOS" then
    let ldd := ["ldd"; executable] in
    match matching_line "libpython" (check_output ldd) with
    | Some line => ([ldd], index (split_ws line) 2)
    | None =>
        let libpython := libpython_name (version_info h) in
        let ldconfig := ["ldconfig"; "-p"] in
        match matching_line libpython (check_output ldconfig) with
        | Some line => ([ldd; ldconfig], index_last (split_ws line))
        | None => ([ldd; ldconfig], raise no_python_dll)
        end
    end
  else if String.eqb sysname "Darwin" then
    let otool := ["otool"; "-L"; executable] in
    match matching_line "Python" (check_output otool) with
    | Some line =>
        ([otool],
         let* python_dll := index (split_ws line) 0 in
         ret (replace "@executable_path" (path_dirname h executable)
                python_dll))
    | None => ([otool], raise no_python_dll)
    end
  else if String.eqb sysname "Windows" then
    ([], ret (python_dll_name (version_info h)))
  else ([], raise no_python_dll).

(** ** The [config] command *)

Definition nl : string := String newline "".

(** [s.rstrip()] *)
Fixpoint lstrip (s : string) : string :=
  match s with
  | "" => ""
  | String c s' => if Ascii.is_space c then lstrip s' else s
  end.

Definition rstrip (s : string) : string := String.rev (lstrip (String.rev s)).

(** [str(x)] for an attribute that is [None] or a string. *)
Definition py_str (o : option string) : string := default "None" o.

(** Truth value of a flag that is [None] or an integer. *)
Definition flag_set (o : option Z) : bool :=
  match o with
  | Some n => negb (n =? 0)
  | None => false
  end.

(** A line [key = value] of the template [SETUP_CFG]. *)
Definition cfg_line (key value : string) : string := key +:+ " = " +:+ value.

(** [SETUP_CFG.format(...)] *)
Definition SETUP_CFG (q_home q_version q_arch python_dll : string) : string :=
  "[config]" +:+ nl +:+
  cfg_line "q_home" q_home +:+ nl +:+
  cfg_line "q_version" q_version +:+ nl +:+
  cfg_line "q_arch" q_arch +:+ nl +:+
  cfg_line "python_dll" python_dll +:+ nl.

(** What [announce] printed: the message and its level. *)
Definition Announcement : Type := string * Z.

(** [if self.x is None: self.x = discover] *)
Definition or_discover {A} (o : option A) (discover : Result A) : Result A :=
  match o with
  | Some v => ret v
  | None => discover
  end.

Module Config.

(** The attributes of the command object. [None] is the class default of
    an attribute that the instance has not been given yet. *)
Record t : Type := {
  q_home : option string;
  q_arch : option string;
  q_version : option string;
  python_dll : option string;
  dest : option string;
  write : option Z;
  extra_link_args : list string
}.

Definition initial : t :=
  {| q_home := None; q_arch := None; q_version := None;
     python_dll := None; dest := None; write := None;
     extra_link_args := [] |}.

Definition finalize_options (h : Host) (d : Disk) (env : gmap string string)
    (check_output : Tool) (self : t) : Result t :=
  let* home := or_discover (q_home self) (get_q_home h d env) in
  let* arch := or_discover (q_arch self) (get_q_arch h d home) in
  let* version := or_discover (q_version self) (get_q_version h d home) in
  let* dll := or_discover (python_dll self)
                (snd (get_python_dll h check_output (executable h))) in
  let* dst := or_discover (dest self) (ret "setup.cfg") in
  ret {| q_home := Some home; q_arch := Some arch;
         q_version := Some version; python_dll := Some dll;
         dest := Some dst; write := write self;
         extra_link_args :=
           if WINDOWS h then ["src\pyq\kx\" +:+ arch +:+ "\q.lib"]
           else extra_link_args self |}.

(** A key of [vars(self)]: an attribute still at its class default is not
    in the instance dictionary. *)
Definition var (name : string) (o : option string) : Result string :=
  match o with
  | Some v => ret v
  | None => raise (KeyError name)
  end.

Definition render (self : t) : Result string :=
  let* home := var "q_home" (q_home self) in
  let* version := var "q_version" (q_version self) in
  let* arch := var "q_arch" (q_arch self) in
  let* dll := var "python_dll" (python_dll self) in
  ret (SETUP_CFG home version arch dll).

(** The state [run] acts on: the command object, the files on disk and
    what has been announced so far. *)
Record state : Type := {
  self : t;
  disk : gmap string string;
  announced : list Announcement
}.

Definition announce (msg : string) (level : Z) (s : state) : state :=
  {| self := self s; disk := disk s;
     announced := announced s ++ [(msg, level)] |}.

(** [with open(path, 'w') as f: f.write(text)] *)
Definition write_file (path : option string) (text : string) (s : state)
    : Result state :=
  match path with
  | None => raise TypeError
  | Some p =>
      ret {| self := self s; disk := <[p := text]> (disk s);
             announced := announced s |}
  end.

Definition run (s : state) : Result state :=
  let* setup_cfg := render (self s) in
  let s := announce (rstrip setup_cfg) 2 s in
  if flag_set (write (self s)) then
    let* s := write_file (dest (self s)) setup_cfg s in
    ret (announce ("^^^ Written to " +:+ py_str (dest (self s)) +:+ ".") 2 s)
  else
    ret (announce ("^^^ Use --write options to write this to "
                   +:+ py_str (dest (self s)) +:+ ".") 2 s).

End Config.

Fixpoint string_drop (n : nat) (s : string) : string :=
  match n, s with
  | O, _ => s
  | S _, "" => ""
  | S n', String _ s' => string_drop n' s'
  end.

(** Modelled from the spec: the reader of the persisted configuration is not
    part of [setup.py]; the spec describes the file as lines in
    [key = value] format.  A line is split at its first [" = "]; a line
    without it (the section header, the empty end) carries no key. *)
Fixpoint partition_at (sep s : string) : option (string * string) :=
  if String.prefix sep s
  then Some ("", string_drop (String.length sep) s)
  else match s with
       | "" => None
       | String c s' =>
           match partition_at sep s' with
           | Some (k, v) => Some (String c k, v)
           | None => None
           end
       end.

Definition parse_cfg (text : string) : list (string * string) :=
  omap (partition_at " = ") (split_on newline text).

(** ** Builders *)

(** A macro definition [(name, value)]; the value may be [None]. *)
Definition Macro : Type := string * option string.

Record Extension : Type := {
  name : string;
  sources : list string;
  extra_compile_args : list string
}.

(** The options of the [build] command that the builders take over. *)
Module Build.
Record t : Type := {
  build_base : option string;
  compiler : option string;
  debug : option Z;
  force : option Z;
  plat_name : option string
}.
End Build.

(** What a builder asks of the compiler object, in order. *)
Inductive Action : Type :=
| Initialize
| RemoveCompileOption (opt : string)
| Compile (srcs : list string) (output_dir : option string)
    (macros : option (list Macro)) (extra_postargs include_dirs : list string)
| LinkSharedObject (objects : list string) (output_filename : string)
    (extra_postargs : list string)
| LinkExecutable (objects : list string) (output_progname : string)
    (output_dir : option string) (extra_preargs : list string).

(** The object files that [compiler.compile] gives for its sources. *)
Definition ObjectNames : Type := list string -> option string -> list string.

(** [set_undefined_options]: an option still [None] is taken from the
    other command. *)
Definition undefined_or {A} (mine theirs : option A) : option A :=
  match mine with
  | Some _ => mine
  | None => theirs
  end.

(** A [None] where a string is needed. *)
Definition need {A} (e : PyError) (o : option A) : Result A :=
  match o with
  | Some v => ret v
  | None => raise e
  end.

Definition DataFiles : Type := list (string * list string).

Fixpoint add_data_file (data_files : DataFiles) (target source : string)
    : DataFiles :=
  match data_files with
  | [] => [(target, [source])]
  | (t, f) :: rest =>
      if String.eqb t target
      then (t, if bool_decide (source ∈ f) then f else f ++ [source]) :: rest
      else (t, f) :: add_data_file rest target source
  end.

Module BuildQExt.

Record t : Type := {
  q_home : option string;
  q_arch : option string;
  q_version : option string;
  build_base : option string;
  build_temp : option string;
  build_lib : option string;
  compiler : option string;
  define : option (list Macro);
  debug : option Z;
  force : option Z;
  plat_name : option string;
  extensions : option (list Extension)
}.

Definition initial : t :=
  {| q_home := None; q_arch := None; q_version := None;
     build_base := None; build_temp := None; build_lib := None;
     compiler := None; define := None; debug := None; force := None;
     plat_name := None; extensions := None |}.

(** [os.path.join(self.build_base, prefix + self.plat_name)] *)
Definition build_dir (h : Host) (base plat : option string)
    (prefix : string) : Result string :=
  let* base := need TypeError base in
  let* plat := need TypeError plat in
  ret (path_join h base (prefix +:+ plat)).

Definition kxver_macros (version : option string) : Result (list Macro) :=
  let* version := need AttributeError version in
  let split_version := split_on "." version in
  let* major := index split_version 0 in
  let* minor := index split_version 1 in
  ret [("KXVER", Some major); ("KXVER2", Some minor)].

Definition finalize_options (h : Host) (conf : Config.t) (build : Build.t)
    (qext_modules : option (list Extension)) (self : t) : Result t :=
  let home := undefined_or (q_home self) (Config.q_home conf) in
  let arch := undefined_or (q_arch self) (Config.q_arch conf) in
  let version := undefined_or (q_version self) (Config.q_version conf) in
  let base := undefined_or (build_base self) (Build.build_base build) in
  let cc := undefined_or (compiler self) (Build.compiler build) in
  let dbg := undefined_or (debug self) (Build.debug build) in
  let frc := undefined_or (force self) (Build.force build) in
  let plat := undefined_or (plat_name self) (Build.plat_name build) in
  let* lib := or_discover (build_lib self)
                (build_dir h base plat "qext.") in
  let* temp := or_discover (build_temp self)
                 (build_dir h base plat "temp.") in
  let exts := undefined_or (extensions self) qext_modules in
  let* def := or_discover (define self) (kxver_macros version) in
  ret {| q_home := home; q_arch := arch; q_version := version;
         build_base := base; build_temp := Some temp;
         build_lib := Some lib; compiler := cc; define := Some def;
         debug := dbg; force := frc; plat_name := plat;
         extensions := exts |}.

(** [ext.name + ('.dll' if WINDOWS else '.so')] *)
Definition ext_filename (h : Host) (ext : Extension) : string :=
  name ext +:+ (if WINDOWS h then ".dll" else ".so").

(** [define.append(('PY3K', py3k))] when [sys.version_info >= (3, )] *)
Definition with_py3k (h : Host) (define : list Macro) : list Macro :=
  if (3 <=? fst (version_info h))%nat
  then define ++ [("PY3K", Some (pretty (fst (version_info h))
                                 +:+ pretty (snd (version_info h))))]
  else define.

(** One turn of the loop [for ext in self.extensions] of [run]. *)
Definition build_one (h : Host) (objs : ObjectNames) (conf : Config.t)
    (self : t) (ext : Extension) (acc : list Action * DataFiles)
    : Result (list Action * DataFiles) :=
  let* lib := need TypeError (build_lib self) in
  let ext_path := path_join h lib (ext_filename h ext) in
  let* define := need TypeError (define self) in
  let define := with_py3k h define in
  let prepare :=
    if WINDOWS h then [Initialize; RemoveCompileOption "/MD"] else [] in
  let extra_args := extra_compile_args ext in
  let objects := objs (sources ext) (build_temp self) in
  let compile :=
    Compile (sources ext) (build_temp self) (Some define) extra_args
      ["src/pyq"] in
  let extra_args :=
    Config.extra_link_args conf ++
    (if WINDOWS h then ["/DEF:src\pyq\" +:+ name ext +:+ ".def"] else []) in
  let link := LinkSharedObject objects ext_path extra_args in
  let* arch := need TypeError (q_arch self) in
  ret (fst acc ++ prepare ++ [compile; link],
       add_data_file (snd acc) (path_join h "q" arch) ext_path).

Fixpoint build_all (h : Host) (objs : ObjectNames) (conf : Config.t)
    (self : t) (exts : list Extension) (acc : list Action * DataFiles)
    : Result (list Action * DataFiles) :=
  match exts with
  | [] => ret acc
  | ext :: rest =>
      let* acc := build_one h objs conf self ext acc in
      build_all h objs conf self rest acc
  end.

(** [run] gives the compiler actions and the new [data_files]. *)
Definition run (h : Host) (objs : ObjectNames) (conf : Config.t)
    (self : t) (data_files : DataFiles) : Result (list Action * DataFiles) :=
  let* exts := need TypeError (extensions self) in
  build_all h objs conf self exts ([], data_files).

End BuildQExt.

Module BuildExe.

(** [force] has no class default here; every command object is given it,
    as [None], when it is created. *)
Record t : Type := {
  q_home : option string;
  q_arch : option string;
  q_version : option string;
  build_temp : option string;
  build_exe : option string;
  build_base : option string;
  compiler : option string;
  debug : option Z;
  define : option (list Macro);
  plat_name : option string;
  force : option Z
}.

Definition initial : t :=
  {| q_home := None; q_arch := None; q_version := None;
     build_temp := None; build_exe := None; build_base := None;
     compiler := None; debug := None; define := None;
     plat_name := None; force := None |}.

(** [os.path.join(self.build_base,
                  'exe.{}-{}'.format(self.plat_name, sys.version[:3]))] *)
Definition exe_dir (h : Host) (base plat : option string) : Result string :=
  let* base := need TypeError base in
  ret (path_join h base
         ("exe." +:+ py_str plat +:+ "-" +:+ slice 0 3 (py_version h))).

(** [[('KXVER', self.q_version[0]), ('QARCH', self.q_arch)]] *)
Definition kxver_macros (version arch : option string)
    : Result (list Macro) :=
  let* version := need TypeError version in
  let* major := first_char version in
  ret [("KXVER", Some major); ("QARCH", arch)].

Definition finalize_options (h : Host) (conf : Config.t) (build : Build.t)
    (self : t) : Result t :=
  let home := undefined_or (q_home self) (Config.q_home conf) in
  let arch := undefined_or (q_arch self) (Config.q_arch conf) in
  let version := undefined_or (q_version self) (Config.q_version conf) in
  let base := undefined_or (build_base self) (Build.build_base build) in
  let cc := undefined_or (compiler self) (Build.compiler build) in
  let dbg := undefined_or (debug self) (Build.debug build) in
  let frc := undefined_or (force self) (Build.force build) in
  let plat := undefined_or (plat_name self) (Build.plat_name build) in
  let* exe := or_discover (build_exe self) (exe_dir h base plat) in
  let* def := or_discover (define self) (kxver_macros version arch) in
  ret {| q_home := home; q_arch := arch; q_version := version;
         build_temp := build_temp self; build_exe := Some exe;
         build_base := base; compiler := cc; debug := dbg;
         define := Some def; plat_name := plat; force := frc |}.

(** [['-m32'] if '-m32' in os.getenv('CFLAGS', '').split() else []] *)
Definition m32_args (env : gmap string string) : list string :=
  if bool_decide ("-m32" ∈ split_ws (default "" (env !! "CFLAGS")))
  then ["-m32"] else [].

(** [run] gives the compiler actions, one pair for each executable. *)
Definition run (objs : ObjectNames) (env : gmap string string) (self : t)
    (executables : list Extension) : list Action :=
  flat_map
    (fun exe =>
       [Compile (sources exe) (build_temp self) (define self)
          (extra_compile_args exe) [];
        LinkExecutable (objs (sources exe) (build_temp self)) (name exe)
          (build_exe self) (m32_args env)])
    executables.

End BuildExe.

(** ** Installing the executables *)

(** ['%o' % n] for [n >= 0] *)
Fixpoint oct_go (fuel : nat) (n : N) (acc : string) : string :=
  match fuel with
  | O => acc
  | S fuel' =>
      let acc' := String (ascii_of_N (48 + n mod 8)) acc in
      if (n / 8 =? 0)%N then acc' else oct_go fuel' (n / 8)%N acc'
  end.

Definition oct (n : Z) : string := oct_go (S (N.size_nat (Z.to_N n))) (Z.to_N n) "".

Module InstallExe.

(** [(mode | 0o555) & 0o7777], with [0o555 = 365] and [0o7777 = 4095] *)
Definition fix_mode (mode : Z) : Z := Z.land (Z.lor mode 365) 4095.

(** The permission bits of the files on disk ([os.stat(file)[ST_MODE]],
    [os.chmod]) and what has been announced. *)
Record state : Type := {
  modes : gmap string Z;
  announced : list Announcement
}.

Definition announce (msg : string) (level : Z) (s : state) : state :=
  {| modes := modes s; announced := announced s ++ [(msg, level)] |}.

Definition chmod (file : string) (mode : Z) (s : state) : state :=
  {| modes := <[file := mode]> (modes s); announced := announced s |}.

(** The body of the loop [for file in self.get_outputs()]. *)
Definition fix_file (dry_run : bool) (file : string) (s : state)
    : Result state :=
  if dry_run then ret (announce ("changing mode of " +:+ file) 2 s)
  else
    let* old := need (IOError file) (modes s !! file) in
    let mode := fix_mode old in
    let s := announce ("changing mode of " +:+ file +:+ " to "
                       +:+ oct mode) 2 s in
    ret (chmod file mode s).

Fixpoint fix_files (dry_run : bool) (outputs : list string) (s : state)
    : Result state :=
  match outputs with
  | [] => ret s
  | file :: rest =>
      let* s := fix_file dry_run file s in
      fix_files dry_run rest s
  end.

(** [run] after the build and the copy: [inputs] is
    [self.get_inputs()], [outfiles] is what [copy_tree] returned. *)
Definition run (h : Host) (dry_run : bool) (inputs : list Extension)
    (outfiles : list string) (s : state) : Result state :=
  match inputs with
  | [] => ret s
  | _ :: _ =>
      if String.eqb (os_name h) "posix"
      then fix_files dry_run outfiles s
      else ret s
  end.

End InstallExe.

(** ** Notions used in the statements *)

(** A value that fits on one line of the persisted configuration. *)
Fixpoint single_line (s : string) : bool :=
  match s with
  | "" => true
  | String c s' => negb (Ascii.eqb c newline) && single_line s'
  end.

(** The runtime locator as the specification words it: three strategies,
    tried in order; the first that yields a path wins. *)

Definition strategy_explicit (env : gmap string string) : option string :=
  truthy (env !! "QHOME").

Definition strategy_prefix (h : Host) (d : Disk) (env : gmap string string)
    (v : string) : option string :=
  match truthy (env !! v) with
  | Some prefix =>
      if isdir d (path_join h prefix "q")
      then Some (path_join h prefix "q") else None
  | None => None
  end.

Definition strategy_windows (h : Host) (d : Disk) (env : gmap string string)
    : option string :=
  if WINDOWS h then
    match env !! "SystemDrive" with
    | Some drive =>
        if isdir d (path_join h drive "\q")
        then Some (path_join h drive "\q") else None
    | None => None
    end
  else None.

Definition first_some {A} (candidates : list (option A)) : option A :=
  foldr (fun c rest => match c with Some _ => c | None => rest end)
    None candidates.

Definition locate_runtime_home (h : Host) (d : Disk)
    (env : gmap string string) : option string :=
  first_some [strategy_explicit env;
              strategy_prefix h d env "VIRTUAL_ENV";
              strategy_prefix h d env "HOME";
              strategy_windows h d env].

(** The output names of the shared objects that a run linked. *)
Definition link_outputs (actions : list Action) : list string :=
  omap (fun a => match a with
                 | LinkSharedObject _ out _ => Some out
                 | _ => None
                 end) actions.

(** What one turn of the loop of [BuildQExt.run] adds to the actions. *)
Definition qext_actions (h : Host) (objs : ObjectNames) (conf : Config.t)
    (self : BuildQExt.t) (lib : string) (define : list Macro)
    (ext : Extension) : list Action :=
  (if WINDOWS h then [Initialize; RemoveCompileOption "/MD"] else []) ++
  [Compile (sources ext) (BuildQExt.build_temp self)
     (Some (BuildQExt.with_py3k h define)) (extra_compile_args ext)
     ["src/pyq"];
   LinkSharedObject (objs (sources ext) (BuildQExt.build_temp self))
     (path_join h lib (BuildQExt.ext_filename h ext))
     (Config.extra_link_args conf ++
      (if WINDOWS h then ["/DEF:src\pyq\" +:+ name ext +:+ ".def"] else []))].

(** The major component of a version token: what stands before its first
    dot. *)
Definition major_component (token : string) : option string :=
  head (split_on "." token).

(** ** Hosts and disks used in the examples *)

Definition linux64 : Host :=
  {| system := "Linux"; machine := "x86_64"; maxsize := 2 ^ 63 - 1;
     version_info := (3, 6)%nat; py_version := "3.6.1 (default)";
     executable := "/usr/bin/python3"; os_name := "posix";
     path_join := posix_join; path_dirname := fun _ => "/usr/bin" |}.

(** [ntpath.join] of two components, for a second component that is
    relative or a first one that is a bare drive. *)
Definition nt_join (a b : string) : string :=
  if startswith b "\" || String.eqb a "" then a +:+ b
  else if startswith (String.rev a) "\" || startswith (String.rev a) "/"
          || startswith (String.rev a) ":" then a +:+ b
  else a +:+ "\" +:+ b.

Definition windows64 : Host :=
  {| system := "Windows"; machine := "AMD64"; maxsize := 2 ^ 63 - 1;
     version_info := (3, 6)%nat; py_version := "3.6.1 (default)";
     executable := "C:\Python36\python.exe"; os_name := "nt";
     path_join := nt_join; path_dirname := fun _ => "C:\Python36" |}.

(** A host that the build does not know. *)
Definition freebsd64 : Host :=
  {| system := "FreeBSD"; machine := "amd64"; maxsize := 2 ^ 63 - 1;
     version_info := (3, 6)%nat; py_version := "3.6.1 (default)";
     executable := "/usr/local/bin/python3"; os_name := "posix";
     path_join := posix_join; path_dirname := fun _ => "/usr/local/bin" |}.

Definition empty_disk : Disk := {| isdir := fun _ => false; files := ∅ |}.

(** A runtime home without any platform subdirectory. *)
Definition bare_home : Disk :=
  {| isdir := fun p => String.eqb p "/home/u/q"; files := ∅ |}.

(** A Windows disk with the runtime at the root of the system drive. *)
Definition system_drive_disk : Disk :=
  {| isdir := fun p => String.eqb p "C:\q"; files := ∅ |}.

(** A runtime home whose [q.k] announces version 3.6. *)
Definition q36_disk : Disk :=
  {| isdir := fun p => String.eqb p "/home/u/q";
     files := {[ "/home/u/q/q.k" :=
                   text_file ("/ kdb+ startup" +:+ nl +:+ "k:3.6;" +:+ nl) ]} |}.

(** Tools that print nothing about the interpreter's library. *)
Definition silent_tools : Tool :=
  fun cmd =>
    match cmd with
    | "ldd" :: _ => "	linux-vdso.so.1 (0x00007ffd)" +:+ nl
                    +:+ "	libc.so.6 => /lib/libc.so.6 (0x00007f)" +:+ nl
    | _ => "	libz.so.1 (libc6,x86-64) => /lib/libz.so.1" +:+ nl
    end.

(** A statically linked interpreter: only the library cache names the
    library. *)
Definition cache_tools : Tool :=
  fun cmd =>
    match cmd with
    | "ldd" :: _ => "	libc.so.6 => /lib/libc.so.6 (0x00007f)" +:+ nl
    | _ => "	libpython3.6m.so.1.0 (libc6,x86-64) => "
           +:+ "/usr/lib/libpython3.6m.so.1.0" +:+ nl
    end.

(** The distribution's metadata: [CFLAGS] and [qext_modules]. *)
Definition CFLAGS (h : Host) : list string :=
  if WINDOWS h then ["/WX"]
  else ["-Wpointer-arith"; "-Werror"; "-fno-strict-aliasing"].

Definition qext_modules (h : Host) : list Extension :=
  [{| name := "p"; sources := ["src/pyq/p.c"];
      extra_compile_args := CFLAGS h |}].

(** A finalized configuration and the [build] options on a Linux host. *)
Definition linux_conf : Config.t :=
  {| Config.q_home := Some "/home/u/q"; Config.q_arch := Some "l64";
     Config.q_version := Some "3.6";
     Config.python_dll := Some "/usr/lib/libpython3.6m.so.1.0";
     Config.dest := Some "setup.cfg"; Config.write := None;
     Config.extra_link_args := [] |}.

Definition linux_build : Build.t :=
  {| Build.build_base := Some "build"; Build.compiler := None;
     Build.debug := None; Build.force := None;
     Build.plat_name := Some "linux-x86_64" |}.

(** The same on a Windows host. *)
Definition windows_conf : Config.t :=
  {| Config.q_home := Some "C:\q"; Config.q_arch := Some "w64";
     Config.q_version := Some "3.6";
     Config.python_dll := Some "python36.dll";
     Config.dest := Some "setup.cfg"; Config.write := None;
     Config.extra_link_args := ["src\pyq\kx\w64\q.lib"] |}.

Definition windows_build : Build.t :=
  {| Build.build_base := Some "build"; Build.compiler := None;
     Build.debug := None; Build.force := None;
     Build.plat_name := Some "win-amd64" |}.

(** Object files named after their sources. *)
Definition dot_o : ObjectNames :=
  fun srcs _ => (fun src => src +:+ ".o") <$> srcs.

(** [build_qext] as [finalize_options] leaves it on these hosts. *)
Definition linux_qext : BuildQExt.t :=
  {| BuildQExt.q_home := Some "/home/u/q"; BuildQExt.q_arch := Some "l64";
     BuildQExt.q_version := Some "3.6"; BuildQExt.build_base := Some "build";
     BuildQExt.build_temp := Some "build/temp.linux-x86_64";
     BuildQExt.build_lib := Some "build/qext.linux-x86_64";
     BuildQExt.compiler := None;
     BuildQExt.define := Some [("KXVER", Some "3"); ("KXVER2", Some "6")];
     BuildQExt.debug := None; BuildQExt.force := None;
     BuildQExt.plat_name := Some "linux-x86_64";
     BuildQExt.extensions := Some (qext_modules linux64) |}.

Definition windows_qext : BuildQExt.t :=
  {| BuildQExt.q_home := Some "C:\q"; BuildQExt.q_arch := Some "w64";
     BuildQExt.q_version := Some "3.6"; BuildQExt.build_base := Some "build";
     BuildQExt.build_temp := Some "build\temp.win-amd64";
     BuildQExt.build_lib := Some "build\qext.win-amd64";
     BuildQExt.compiler := None;
     BuildQExt.define := Some [("KXVER", Some "3"); ("KXVER2", Some "6")];
     BuildQExt.debug := None; BuildQExt.force := None;
     BuildQExt.plat_name := Some "win-amd64";
     BuildQExt.extensions := Some (qext_modules windows64) |}.

(** A runtime home whose [q.k] announces a two-digit major version. *)
Definition q10_disk : Disk :=
  {| isdir := fun p => String.eqb p "/home/u/q";
     files := {[ "/home/u/q/q.k" := text_file ("k:10.0;" +:+ nl) ]} |}.

Definition q10_conf : Config.t :=
  {| Config.q_home := Some "/home/u/q"; Config.q_arch := Some "l64";
     Config.q_version := Some "10.";
     Config.python_dll := Some "/usr/lib/libpython3.6m.so.1.0";
     Config.dest := Some "setup.cfg"; Config.write := None;
     Config.extra_link_args := [] |}.

(** The command object after [config --write] on the Linux host. *)
Definition linux_conf_write : Config.t :=
  {| Config.q_home := Some "/home/u/q"; Config.q_arch := Some "l64";
     Config.q_version := Some "3.6";
     Config.python_dll := Some "/usr/lib/libpython3.6m.so.1.0";
     Config.dest := Some "setup.cfg"; Config.write := Some 1;
     Config.extra_link_args := [] |}.

Definition fresh (self : Config.t) : Config.state :=
  {| Config.self := self; Config.disk := ∅; Config.announced := [] |}.


(** ** Notions used in the further properties *)

(** The files registered for a target: [add_data_file] works on the first
    entry for it. *)
Fixpoint files_for (data_files : DataFiles) (target : string)
    : option (list string) :=
  match data_files with
  | [] => None
  | (t, f) :: rest =>
      if String.eqb t target then Some f else files_for rest target
  end.

(** The [data_files] of the distribution's metadata. *)
Definition metadata_data_files : DataFiles :=
  [("q", ["src/pyq/p.k"; "src/pyq/pyq-operators.q"; "src/pyq/python.q"])].


(** The permission bits of two installed files. *)
Definition installed_modes : InstallExe.state :=
  {| InstallExe.modes := {[ "/usr/bin/pyq" := 33188; "/usr/bin/other" := 384 ]};
     InstallExe.announced := [] |}.

(** [executables] of the distribution's metadata. *)
Definition executables (h : Host) : list Extension :=
  if WINDOWS h then []
  else [{| name := "pyq"; sources := ["src/pyq.c"];
           extra_compile_args := CFLAGS h |}].


(** A command line that gives all four values: [config --q-home=...]. *)
Definition given_conf : Config.t :=
  {| Config.q_home := Some "/opt/q"; Config.q_arch := Some "l32";
     Config.q_version := Some "3.4";
     Config.python_dll := Some "/opt/lib/libpython2.7.so";
     Config.dest := None; Config.write := Some 1;
     Config.extra_link_args := [] |}.

(** The user's home holds a runtime with both a 64-bit directory and
    [q.k]. *)
Definition full_disk : Disk :=
  {| isdir := fun p => String.eqb p "/home/u/q" || String.eqb p "/home/u/q/l64";
     files := {[ "/home/u/q/q.k" := text_file ("k:3.6;" +:+ nl) ]} |}.

(** What discovery finds there. *)
Definition discovered_conf : Config.t :=
  {| Config.q_home := Some "/home/u/q"; Config.q_arch := Some "l64";
     Config.q_version := Some "3.6";
     Config.python_dll := Some "/usr/lib/libpython3.6m.so.1.0";
     Config.dest := Some "setup.cfg"; Config.write := None;
     Config.extra_link_args := [] |}.


(** A 32-bit Linux host. *)
Definition linux32 : Host :=
  {| system := "Linux"; machine := "i686"; maxsize := 2 ^ 31 - 1;
     version_info := (2, 7)%nat; py_version := "2.7.12 (default)";
     executable := "/usr/bin/python"; os_name := "posix";
     path_join := posix_join; path_dirname := fun _ => "/usr/bin" |}.

(** A string without a line end: neither LF nor CR. *)
Fixpoint plain_line (s : string) : bool :=
  match s with
  | "" => true
  | String c s' =>
      negb (Ascii.eqb c newline) && negb (Ascii.eqb c carriage_return)
      && plain_line s'
  end.

(** The text of a [q.k] that announces the version [v] after some lines
    that do not. *)
Definition qk_text (before : list string) (v rest : string) : string :=
  foldr (fun line text => line +:+ nl +:+ text) ("k:" +:+ v +:+ rest) before.







(** ** The [build_qlib] command *)

Definition backslash : string := "\".

(** [PYQ_CONFIG.format(...)]: the q script that names the host library,
    ended by the three characters [\000], and the installed executable. *)
Definition PYQ_CONFIG (python_dll pyq_executable : string) : string :=
  "\d .p" +:+ nl +:+
  "python_dll:" +:+ dquote +:+ python_dll +:+ "\000" +:+ dquote +:+ nl +:+
  "pyq_executable:" +:+ dquote +:+ pyq_executable +:+ dquote +:+ nl.

(** What a command asks of the file system, in order. *)
Inductive FileAction : Type :=
| Mkpath (dir : string)
| WriteFile (path text : string)
| CopyFile (src dst : string).

Module BuildQLib.

(** The attributes before [finalize_options]; [build_lib] can be given on
    the command line. *)
Record options : Type := {
  given_q_home : option string;
  given_build_base : option string;
  given_build_lib : option string;
  given_python_dll : option string
}.

(** The attributes after [finalize_options]: all are in the instance
    dictionary; those taken from other commands may hold [None]. *)
Record t : Type := {
  q_home : option string;
  build_base : option string;
  build_lib : string;
  python_dll : option string;
  pyq_executable : string
}.

(** [install_dir] is the option of the finalized [install_exe] command. *)
Definition finalize_options (h : Host) (conf : Config.t) (build : Build.t)
    (install_dir : option string) (self : options) : Result t :=
  let home := undefined_or (given_q_home self) (Config.q_home conf) in
  let dll := undefined_or (given_python_dll self) (Config.python_dll conf) in
  let base := undefined_or (given_build_base self) (Build.build_base build) in
  let* base_dir := need TypeError base in
  let lib := path_join h base_dir "qlib" in
  let* dir := need TypeError install_dir in
  let pyq_path := path_join h dir "pyq" in
  ret {| q_home := home; build_base := base; build_lib := lib;
         python_dll := dll;
         pyq_executable := replace backslash (backslash +:+ backslash)
                             pyq_path |}.

Definition pyq_config_file (h : Host) (self : t) : string :=
  path_join h (build_lib self) "pyq-config.q".

(** [write_pyq_config] gives the file it wrote and the new [data_files]. *)
Definition write_pyq_config (h : Host) (self : t) (data_files : DataFiles)
    : FileAction * DataFiles :=
  (WriteFile (pyq_config_file h self)
     (PYQ_CONFIG (py_str (python_dll self)) (pyq_executable self)),
   add_data_file data_files "q" (pyq_config_file h self)).

(** The loop [for script in self.distribution.qlib_scripts] of [run]. *)
Fixpoint build_scripts (h : Host) (self : t) (scripts : list string)
    (acc : list FileAction * DataFiles) : list FileAction * DataFiles :=
  match scripts with
  | [] => acc
  | script :: rest =>
      let outfile := path_join h (build_lib self) script in
      let script_file := path_join h (path_join h "src" "pyq") script in
      let '(written, data_files) := write_pyq_config h self (snd acc) in
      build_scripts h self rest
        (fst acc ++ [written; CopyFile script_file outfile], data_files)
  end.

Definition run (h : Host) (self : t) (qlib_scripts : list string)
    (data_files : DataFiles) : list FileAction * DataFiles :=
  build_scripts h self qlib_scripts ([Mkpath (build_lib self)], data_files).

End BuildQLib.

(** [qlib_scripts] of the distribution's metadata. *)
Definition qlib_scripts : list string := ["python.q"; "p.k"; "pyq-operators.q"].

(** Reading a doubled backslash as one, as a q string literal is read. *)
Fixpoint unescape (s : string) : string :=
  match s with
  | "" => ""
  | String c s' =>
      match s' with
      | String c' s'' =>
          if Ascii.eqb c "\" && Ascii.eqb c' "\"
          then String c (unescape s'')
          else String c (unescape s')
      | "" => s
      end
  end.

(** The files that a run copied, as pairs of source and destination. *)
Definition copies (actions : list FileAction) : list (string * string) :=
  omap (fun a => match a with
                 | CopyFile src dst => Some (src, dst)
                 | _ => None
                 end) actions.

(** The files that a run wrote, with their text. *)
Definition writes (actions : list FileAction) : list (string * string) :=
  omap (fun a => match a with
                 | WriteFile path text => Some (path, text)
                 | _ => None
                 end) actions.
(** A command line that gives [--build-lib] and nothing else. *)
Definition lib_option : BuildQLib.options :=
  {| BuildQLib.given_q_home := None; BuildQLib.given_build_base := None;
     BuildQLib.given_build_lib := Some "out";
     BuildQLib.given_python_dll := None |}.
(** What one turn of the loop of [BuildQLib.run] adds to the actions. *)
Definition qlib_actions (h : Host) (self : BuildQLib.t) (script : string)
    : list FileAction :=
  [WriteFile (BuildQLib.pyq_config_file h self)
     (PYQ_CONFIG (py_str (BuildQLib.python_dll self))
        (BuildQLib.pyq_executable self));
   CopyFile (path_join h (path_join h "src" "pyq") script)
     (path_join h (BuildQLib.build_lib self) script)].

(** The configuration found when the line of [q.k] reads [k:3]. *)
Definition q3_conf : Config.t :=
  {| Config.q_home := Some "/home/u/q"; Config.q_arch := Some "l64";
     Config.q_version := Some "3";
     Config.python_dll := Some "/usr/lib/libpython3.6m.so.1.0";
     Config.dest := Some "setup.cfg"; Config.write := None;
     Config.extra_link_args := [] |}.


(** ** The version of the distribution *)

Definition VERSION : string := "4.1.2".
Definition VERSION_FILE : string := "src/pyq/version.py".

(** [VERSION_PY.format(version)] *)
Definition VERSION_PY (version : string) : string :=
  "# generated by setup.py" +:+ nl +:+
  "version = '" +:+ version +:+ "'" +:+ nl.

(** [s.strip()] *)
Definition strip (s : string) : string := rstrip (lstrip s).

Definition unknown_version : string := VERSION +:+ ".dev0+unknown".

(** The body of the [try] on the output of [git describe]; [None] is the
    ValueError of the unpacking into three names. *)
Definition dev_version (out : string) : option string :=
  match split_on "-" (strip out) with
  | [_; commits; revision] =>
      Some (VERSION +:+ ".dev" +:+ commits +:+ "+" +:+ string_drop 1 revision)
  | _ => None
  end.

(** [get_version] gives the version and the files as it leaves them.
    [is_release] is [IS_RELEASE] (the source sets it to [True]), [git_dir]
    is [os.path.exists('.git')],
    [git] is what [git describe] printed or the exception of running it
    (an [IOError] stands for the OSError of a missing program),
    [exec_version] is [g['version']] after the [exec] of a text. *)
Definition get_version (is_release git_dir : bool) (git : Result string)
    (exec_version : string -> Result string) (files : gmap string string)
    : Result (string * gmap string string) :=
  let written version :=
    ret (version, <[VERSION_FILE := VERSION_PY version]> files) in
  if is_release then written VERSION
  else if git_dir then
    match git with
    | inr out => written (default unknown_version (dev_version out))
    | inl (IOError _) => written unknown_version
    | inl e => raise e
    end
  else
    match files !! VERSION_FILE with
    | None => written unknown_version
    | Some text =>
        let* version := exec_version text in
        ret (version, files)
    end.


(** ** The description of the distribution *)




(** * Properties *)

(** ** Platform identity *)

Lemma eqb_false_of_ne (s t : string) : s ≠ t -> String.eqb s t = false.
Proof. intros Hne. by apply String.eqb_neq. Qed.

(** C4: on the four supported systems [get_q_os_letter] returns one of the
    letters l, s, v, m, w (Linux gives l, SunOS gives v on machine i86pc
    and s on any other machine, Darwin gives m, Windows gives w); on every
    other system name it raises the RuntimeError that reports the unknown
    platform. *)
Theorem get_q_os_letter_supported_or_error (sysname mach : string) :
  (sysname ∈ ["Linux"; "SunOS"; "Darwin"; "Windows"] ->
   exists letter,
     get_q_os_letter sysname mach = inr letter /\
     letter ∈ ["l"; "s"; "v"; "m"; "w"] /\
     (sysname = "Linux" -> letter = "l") /\
     (sysname = "SunOS" -> mach = "i86pc" -> letter = "v") /\
     (sysname = "SunOS" -> mach ≠ "i86pc" -> letter = "s") /\
     (sysname = "Darwin" -> letter = "m") /\
     (sysname = "Windows" -> letter = "w")) /\
  (sysname ∉ ["Linux"; "SunOS"; "Darwin"; "Windows"] ->
   get_q_os_letter sysname mach
   = inl (RuntimeError (unknown_platform sysname mach))).
Proof.
  split.
  - intros Hin. rewrite !elem_of_cons in Hin.
    destruct Hin as [-> | [-> | [-> | [-> | Hnil]]]].
    + exists "l". repeat split; try done. set_solver.
    + destruct (String.eqb_spec mach "i86pc") as [-> | Hm].
      * exists "v". repeat split; try done. set_solver.
      * exists "s". unfold get_q_os_letter. cbn.
        rewrite (eqb_false_of_ne _ _ Hm).
        repeat split; try done. set_solver.
    + exists "m". repeat split; try done. set_solver.
    + exists "w". repeat split; try done. set_solver.
    + by apply elem_of_nil in Hnil.
  - intros Hout. rewrite !not_elem_of_cons in Hout.
    destruct Hout as (H1 & H2 & H3 & H4 & _).
    unfold get_q_os_letter.
    by rewrite !eqb_false_of_ne.
Qed.

Lemma get_q_os_letter_witness :
  (exists letter, get_q_os_letter "SunOS" "i86pc" = inr letter /\ letter = "v")
  /\ get_q_os_letter "AIX" "ppc"
     = inl (RuntimeError (unknown_platform "AIX" "ppc")).
Proof.
  split.
  - destruct (proj1 (get_q_os_letter_supported_or_error "SunOS" "i86pc"))
      as (letter & Hret & _ & _ & Hv & _).
    + rewrite !elem_of_cons. right. left. reflexivity.
    + exists letter. split; [exact Hret | apply Hv; reflexivity].
  - apply (proj2 (get_q_os_letter_supported_or_error "AIX" "ppc")).
    rewrite !not_elem_of_cons. repeat split; try discriminate.
    apply not_elem_of_nil.
Defined.

(** Only the width 64 prints as [64]. *)
Lemma pretty_bits_64 (bits : Z) : pretty bits = "64" -> bits = 64.
Proof. intros Hp. by apply (inj (pretty : Z -> string)). Qed.

(** C3: when the directory [<letter>64] is missing under the runtime home,
    [get_q_arch] does not return the code [<letter>64]; on a 64-bit host it
    returns [<letter>32]. *)
Theorem get_q_arch_downgrades (h : Host) (d : Disk) (q_home letter : string) :
  get_q_os_letter (system h) (machine h) = inr letter ->
  isdir d (path_join h q_home (letter +:+ "64")) = false ->
  get_q_arch h d q_home ≠ inr (letter +:+ "64") /\
  (bit_length (maxsize h + 1) = 64 ->
   get_q_arch h d q_home = inr (letter +:+ "32")).
Proof.
  intros Hletter Hdir. unfold get_q_arch. rewrite Hletter. cbn [bind].
  rewrite Hdir. cbn [negb].
  destruct (bit_length (maxsize h + 1) =? 64) eqn:Hbits.
  - split; [| done].
    intros Heq. injection Heq as Heq.
    by apply (inj (String.app letter)) in Heq.
  - apply Z.eqb_neq in Hbits. split; [| done].
    intros Heq. injection Heq as Heq.
    apply (inj (String.app letter)) in Heq.
    by apply pretty_bits_64 in Heq.
Qed.


Lemma get_q_arch_downgrades_witness :
  get_q_arch linux64 bare_home "/home/u/q" ≠ inr "l64" /\
  get_q_arch linux64 bare_home "/home/u/q" = inr "l32".
Proof.
  destruct (get_q_arch_downgrades linux64 bare_home "/home/u/q" "l")
    as [Hne Hret]; [reflexivity | reflexivity |].
  split; [exact Hne | apply Hret; reflexivity].
Defined.

(** ** Runtime home *)

Lemma truthy_Some (o : option string) (q : string) :
  truthy o = Some q <-> o = Some q /\ q ≠ "".
Proof.
  unfold truthy. destruct o as [s |].
  - destruct (String.eqb_spec s "") as [-> | Hne].
    + split; [discriminate | intros [[= <-] Hne]; by destruct Hne].
    + split; [intros [= <-]; by split | by intros [[= <-] _]].
  - split; [discriminate | by intros [? _]].
Qed.

(** A candidate derived from a prefix variable is an existing directory. *)
Lemma prefix_candidates_isdir (h : Host) (d : Disk) (env : gmap string string)
    (vs : list string) (p : string) :
  prefix_candidates h d env vs = Some p -> isdir d p = true.
Proof.
  induction vs as [| v vs IH]; cbn; [done |].
  destruct (truthy (env !! v)) as [prefix |]; [| exact IH].
  destruct (isdir d (path_join h prefix "q")) eqn:Hdir; [| exact IH].
  by intros [= <-].
Qed.

(** The loop over the prefix variables is the second strategy, taken for
    VIRTUAL_ENV and then for HOME. *)
Lemma prefix_candidates_strategies (h : Host) (d : Disk)
    (env : gmap string string) :
  prefix_candidates h d env ["VIRTUAL_ENV"; "HOME"]
  = first_some [strategy_prefix h d env "VIRTUAL_ENV";
                strategy_prefix h d env "HOME"].
Proof.
  unfold strategy_prefix. cbn.
  destruct (truthy (env !! "VIRTUAL_ENV")) as [p1 |];
    destruct (truthy (env !! "HOME")) as [p2 |]; cbn;
    repeat case_match; done.
Qed.

(** C10: a non-empty QHOME is returned as it is, whether or not it names a
    directory, while a candidate derived from a prefix variable is only
    accepted when [os.path.isdir] holds for it. *)
Theorem get_q_home_QHOME_unchecked (h : Host) (d : Disk)
    (env : gmap string string) (q : string) :
  env !! "QHOME" = Some q ->
  q ≠ "" ->
  get_q_home h d env = inr q /\
  (forall vs p, prefix_candidates h d env vs = Some p -> isdir d p = true).
Proof.
  intros Hq Hne. split.
  - unfold get_q_home.
    by rewrite (proj2 (truthy_Some _ _) (conj Hq Hne)).
  - intros vs p. apply prefix_candidates_isdir.
Qed.

Lemma get_q_home_QHOME_unchecked_witness :
  isdir empty_disk "/no/such/dir" = false /\
  get_q_home linux64 empty_disk {[ "QHOME" := "/no/such/dir" ]}
  = inr "/no/such/dir".
Proof.
  split; [reflexivity |].
  apply (get_q_home_QHOME_unchecked linux64 empty_disk
           {[ "QHOME" := "/no/such/dir" ]} "/no/such/dir").
  - reflexivity.
  - discriminate.
Defined.

(** C2, as the code has it: [get_q_home] returns the result of the first
    strategy that yields one -- QHOME itself, then [<prefix>/q] for
    VIRTUAL_ENV and for HOME if it is a directory, then on Windows the fixed
    path on the system drive if it is a directory -- and raises the
    RuntimeError [No suitable QHOME.] if and only if no strategy yields a
    result, provided that SystemDrive is set whenever the third strategy is
    reached, that is on a Windows host where the first two strategies yield
    nothing. *)
Theorem get_q_home_strategies (h : Host) (d : Disk)
    (env : gmap string string) :
  (WINDOWS h = true ->
   first_some [strategy_explicit env;
               strategy_prefix h d env "VIRTUAL_ENV";
               strategy_prefix h d env "HOME"] = None ->
   is_Some (env !! "SystemDrive")) ->
  get_q_home h d env
  = match locate_runtime_home h d env with
    | Some q_home => inr q_home
    | None => inl no_suitable_qhome
    end /\
  (get_q_home h d env = inl no_suitable_qhome
   <-> locate_runtime_home h d env = None).
Proof.
  intros Hdrive.
  assert (get_q_home h d env
          = match locate_runtime_home h d env with
            | Some q_home => inr q_home
            | None => inl no_suitable_qhome
            end) as Heq.
  { unfold get_q_home, locate_runtime_home.
    rewrite prefix_candidates_strategies.
    unfold strategy_explicit, strategy_windows in *. cbn in *.
    destruct (truthy (env !! "QHOME")); [done |].
    destruct (strategy_prefix h d env "VIRTUAL_ENV"); [done |].
    destruct (strategy_prefix h d env "HOME"); [done |].
    destruct (WINDOWS h); [| done].
    destruct Hdrive as [drive ->]; [done | done |].
    by destruct (isdir d (path_join h drive "\q")). }
  split; [exact Heq |].
  rewrite Heq. by destruct (locate_runtime_home h d env).
Qed.

Lemma get_q_home_strategies_witness :
  get_q_home windows64 system_drive_disk {[ "SystemDrive" := "C:" ]}
  = inr "C:\q"
  /\ (get_q_home windows64 empty_disk {[ "SystemDrive" := "C:" ]}
      = inl no_suitable_qhome
      <-> locate_runtime_home windows64 empty_disk {[ "SystemDrive" := "C:" ]}
          = None)
  /\ get_q_home windows64 empty_disk {[ "QHOME" := "D:\kdb" ]}
     = inr "D:\kdb".
Proof.
  assert (is_Some (({[ "SystemDrive" := "C:" ]} : gmap string string)
                   !! "SystemDrive")) as Hdrive.
  { exists "C:". reflexivity. }
  split; [| split].
  - destruct (get_q_home_strategies windows64 system_drive_disk
                {[ "SystemDrive" := "C:" ]} (fun _ _ => Hdrive)) as [Heq _].
    rewrite Heq. reflexivity.
  - apply (get_q_home_strategies windows64 empty_disk
             {[ "SystemDrive" := "C:" ]} (fun _ _ => Hdrive)).
  - destruct (get_q_home_strategies windows64 empty_disk
                {[ "QHOME" := "D:\kdb" ]}) as [Heq _].
    + intros _ Hnone. discriminate Hnone.
    + rewrite Heq. reflexivity.
Defined.

(** C2 as stated fails on a Windows host whose environment has no
    SystemDrive: every strategy comes up empty, and the error raised is a
    KeyError, not the RuntimeError. *)
Lemma get_q_home_missing_SystemDrive :
  locate_runtime_home windows64 empty_disk ∅ = None /\
  get_q_home windows64 empty_disk ∅ = inl (KeyError "SystemDrive") /\
  ~ (get_q_home windows64 empty_disk ∅ = inl no_suitable_qhome
     <-> locate_runtime_home windows64 empty_disk ∅ = None).
Proof.
  split; [reflexivity |]. split; [reflexivity |].
  intros [_ Hraise]. specialize (Hraise eq_refl). discriminate Hraise.
Qed.

(** ** Runtime version *)

(** The scan returns the slice of the first line that starts with [k:];
    when there is none, it raises what the file raised, and returns the
    default when the file was read to its end. *)
Lemma scan_version_find (lines : list string) (failure : option PyError) :
  scan_version lines failure
  = match List.find (fun line => startswith line "k:") lines with
    | Some line => inr (slice 2 5 line)
    | None =>
        match failure with
        | Some e => inl e
        | None => inr "2.2"
        end
    end.
Proof.
  induction lines as [| line rest IH]; cbn; [by destruct failure |].
  by destruct (startswith line "k:").
Qed.

(** C1, as the code has it: when [q.k] exists under the runtime home,
    [get_q_version] returns the slice [2:5] of the first line of it that
    starts with [k:]; when no line does and the file was read to its end,
    it returns [2.2]; when no line read so far does and the reading fails,
    it raises that failure; when [q.k] is absent the call raises the error
    of [open] and returns nothing. *)
Theorem get_q_version_first_k_line (h : Host) (d : Disk) (q_home : string) :
  get_q_version h d q_home
  = match files d !! path_join h q_home "q.k" with
    | Some f =>
        match List.find (fun line => startswith line "k:") (text_lines f) with
        | Some line => inr (slice 2 5 line)
        | None =>
            match text_error f with
            | Some e => inl e
            | None => inr "2.2"
            end
        end
    | None => inl (IOError (path_join h q_home "q.k"))
    end.
Proof.
  unfold get_q_version.
  destruct (files d !! path_join h q_home "q.k") as [f |]; [| done].
  apply scan_version_find.
Qed.

Example get_q_version_36 : get_q_version linux64 q36_disk "/home/u/q" = inr "3.6".
Proof. reflexivity. Qed.

(** A lone CR ends the header line, CR LF the line of the version. *)
Example get_q_version_carriage_return :
  scan_version
    (text_lines (text_file ("/ header" +:+ String carriage_return "k:3.6;"
                            +:+ String carriage_return nl)))
    None
  = inr "3.6".
Proof. reflexivity. Qed.

(** Bytes that do not decode, met before any line starts with [k:]. *)
Example get_q_version_undecodable :
  scan_version ["/ header" +:+ nl] (Some UnicodeDecodeError)
  = inl UnicodeDecodeError.
Proof. reflexivity. Qed.

(** C1 as stated fails when [q.k] is absent: nothing is returned, the
    missing file is an error. *)
Lemma get_q_version_absent_raises :
  files empty_disk !! path_join linux64 "/home/u/q" "q.k" = None /\
  get_q_version linux64 empty_disk "/home/u/q" = inl (IOError "/home/u/q/q.k")
  /\ get_q_version linux64 empty_disk "/home/u/q" ≠ inr "2.2".
Proof. split; [reflexivity |]. split; [reflexivity | discriminate]. Qed.

(** ** Host library *)

Lemma matching_line_None (fragment output : string) :
  Forall (fun line => contains fragment line = false) (splitlines output) ->
  matching_line fragment output = None.
Proof.
  unfold matching_line.
  induction 1 as [| line rest Hline _ IH]; cbn; [done |].
  by rewrite Hline.
Qed.

Lemma matching_line_Some (fragment output line : string) :
  matching_line fragment output = Some line ->
  line ∈ splitlines output /\ contains fragment line = true.
Proof.
  unfold matching_line. intros Hfind.
  apply find_some in Hfind as [Hin Hcontains].
  split; [by apply list_elem_of_In | exact Hcontains].
Qed.

Lemma rev_app_length (s1 s2 : string) :
  String.length (String.rev_app s1 s2)
  = (String.length s1 + String.length s2)%nat.
Proof.
  revert s2. induction s1 as [| a s1 IH]; intros s2; cbn; [done |].
  rewrite IH. cbn. lia.
Qed.

Lemma rev_nonempty (s : string) : s ≠ "" -> String.rev s ≠ "".
Proof.
  intros Hne Hrev. apply (f_equal String.length) in Hrev.
  unfold String.rev in Hrev. rewrite rev_app_length in Hrev.
  destruct s; [done | cbn in Hrev; lia].
Qed.

Lemma words_go_nonempty (s : string) (cur : option string) (w : string) :
  (forall c, cur = Some c -> c ≠ "") ->
  w ∈ String.words_go cur s -> w ≠ "".
Proof.
  revert cur. induction s as [| a s IH]; intros cur Hcur; cbn.
  - destruct cur as [c |]; cbn; [| by intros ?%elem_of_nil].
    intros ->%list_elem_of_singleton. by apply rev_nonempty, Hcur.
  - destruct (Ascii.is_space a).
    + intros [Hin | Hin]%elem_of_app; [| by apply (IH None)].
      destruct cur as [c |]; cbn in Hin; [| by apply elem_of_nil in Hin].
      apply list_elem_of_singleton in Hin as ->. by apply rev_nonempty, Hcur.
    + apply IH. intros c [= <-]. by destruct cur.
Qed.

Lemma split_ws_nonempty (s w : string) : w ∈ split_ws s -> w ≠ "".
Proof. apply words_go_nonempty. discriminate. Qed.

Lemma index_elem_of {A} (l : list A) (i : nat) (x : A) :
  index l i = inr x -> x ∈ l.
Proof.
  unfold index. destruct (l !! i) as [y |] eqn:Hlookup; [| discriminate].
  intros [= <-]. by apply list_elem_of_lookup_2 in Hlookup.
Qed.

Lemma index_last_elem_of {A} (l : list A) (x : A) :
  index_last l = inr x -> x ∈ l.
Proof.
  unfold index_last. destruct (last l) as [y |] eqn:Hlast; [| discriminate].
  intros [= <-]. by apply last_Some_elem_of in Hlast.
Qed.

(** C5: on Windows [get_python_dll] returns [python<major><minor>.dll] and
    runs no tool; on Linux and SunOS (a system name that starts with either
    word), when no line of the [ldd] output holds [libpython] and no line of
    the [ldconfig -p] output holds [libpython<major>.<minor>], it raises the
    RuntimeError [no python dll]; on a system that is none of Linux, SunOS,
    Darwin and Windows it raises the same error without running a tool; and
    a path is only ever returned on Windows or from a line of the output of
    a tool that was run and that holds the fragment looked for, and off
    Darwin a returned path is never empty. *)
Theorem get_python_dll_outcomes (h : Host) (check_output : Tool)
    (exe : string) :
  (system h = "Windows" ->
   get_python_dll h check_output exe
   = ([], inr (python_dll_name (version_info h)))) /\
  (startswith (system h) "Linux" = true
   \/ startswith (system h) "SunOS" = true ->
   Forall (fun line => contains "libpython" line = false)
     (splitlines (check_output ["ldd"; exe])) ->
   Forall (fun line =>
             contains (libpython_name (version_info h)) line = false)
     (splitlines (check_output ["ldconfig"; "-p"])) ->
   snd (get_python_dll h check_output exe) = inl no_python_dll) /\
  (startswith (system h) "Linux" = false ->
   startswith (system h) "SunOS" = false ->
   system h ≠ "Darwin" ->
   system h ≠ "Windows" ->
   get_python_dll h check_output exe = ([], inl no_python_dll)) /\
  (forall p,
     snd (get_python_dll h check_output exe) = inr p ->
     system h = "Windows" \/
     exists cmd line fragment,
       cmd ∈ fst (get_python_dll h check_output exe) /\
       line ∈ splitlines (check_output cmd) /\
       fragment ∈ ["libpython"; libpython_name (version_info h); "Python"] /\
       contains fragment line = true) /\
  (forall p,
     snd (get_python_dll h check_output exe) = inr p ->
     system h ≠ "Darwin" ->
     p ≠ "").
Proof.
  unfold get_python_dll. repeat apply conj.
  - intros ->. reflexivity.
  - intros Hsys Hldd Hldconfig.
    assert (startswith (system h) "Linux" || startswith (system h) "SunOS"
            = true) as ->.
    { apply orb_true_iff. exact Hsys. }
    rewrite (matching_line_None _ _ Hldd).
    by rewrite (matching_line_None _ _ Hldconfig).
  - intros -> -> Hdarwin Hwindows. cbn [orb].
    by rewrite !eqb_false_of_ne.
  - intros p.
    destruct (startswith (system h) "Linux" || startswith (system h) "SunOS").
    + destruct (matching_line "libpython" _) as [line |] eqn:Hldd.
      * intros _. right.
        apply matching_line_Some in Hldd as [Hin Hcontains].
        exists ["ldd"; exe], line, "libpython".
        repeat split; [set_solver | exact Hin | set_solver | exact Hcontains].
      * destruct (matching_line (libpython_name _) _) as [line |] eqn:Hcache;
          [| discriminate].
        intros _. right.
        apply matching_line_Some in Hcache as [Hin Hcontains].
        exists ["ldconfig"; "-p"], line, (libpython_name (version_info h)).
        repeat split; [set_solver | exact Hin | set_solver | exact Hcontains].
    + destruct (String.eqb_spec (system h) "Darwin") as [_ | _].
      * destruct (matching_line "Python" _) as [line |] eqn:Hotool;
          [| discriminate].
        intros _. right.
        apply matching_line_Some in Hotool as [Hin Hcontains].
        exists ["otool"; "-L"; exe], line, "Python".
        repeat split; [set_solver | exact Hin | set_solver | exact Hcontains].
      * destruct (String.eqb_spec (system h) "Windows") as [Hwin | _];
          [by left | discriminate].
  - intros p.
    destruct (startswith (system h) "Linux" || startswith (system h) "SunOS").
    + destruct (matching_line "libpython" _) as [line |].
      * intros Hp%index_elem_of _. by apply split_ws_nonempty in Hp.
      * destruct (matching_line (libpython_name _) _) as [line |];
          [| discriminate].
        intros Hp%index_last_elem_of _. by apply split_ws_nonempty in Hp.
    + destruct (String.eqb_spec (system h) "Darwin") as [Hdarwin | _];
        [by intros _ [] |].
      destruct (String.eqb (system h) "Windows"); [| discriminate].
      by intros [= <-] _.
Qed.


Example get_python_dll_from_cache :
  get_python_dll linux64 cache_tools "/usr/bin/python3"
  = ([["ldd"; "/usr/bin/python3"]; ["ldconfig"; "-p"]],
     inr "/usr/lib/libpython3.6m.so.1.0").
Proof. reflexivity. Qed.

Lemma get_python_dll_outcomes_witness :
  get_python_dll windows64 silent_tools "python.exe"
  = ([], inr "python36.dll") /\
  snd (get_python_dll linux64 silent_tools "/usr/bin/python3")
  = inl no_python_dll /\
  get_python_dll freebsd64 silent_tools "/usr/local/bin/python3"
  = ([], inl no_python_dll) /\
  (system linux64 = "Windows" \/
   exists cmd line fragment,
     cmd ∈ fst (get_python_dll linux64 cache_tools "/usr/bin/python3") /\
     line ∈ splitlines (cache_tools cmd) /\
     fragment ∈ ["libpython"; libpython_name (version_info linux64);
                 "Python"] /\
     contains fragment line = true) /\
  "/usr/lib/libpython3.6m.so.1.0" ≠ "".
Proof.
  repeat apply conj.
  - apply (get_python_dll_outcomes windows64 silent_tools "python.exe").
    reflexivity.
  - apply (get_python_dll_outcomes linux64 silent_tools "/usr/bin/python3").
    + left. reflexivity.
    + repeat constructor.
    + repeat constructor.
  - apply (get_python_dll_outcomes freebsd64 silent_tools
             "/usr/local/bin/python3");
      [reflexivity | reflexivity | discriminate | discriminate].
  - apply (get_python_dll_outcomes linux64 cache_tools "/usr/bin/python3")
      with (p := "/usr/lib/libpython3.6m.so.1.0").
    reflexivity.
  - apply (get_python_dll_outcomes linux64 cache_tools "/usr/bin/python3");
      [reflexivity | discriminate].
Defined.

(** ** Installing the executables *)

Lemma fix_mode_fixed (m : Z) :
  InstallExe.fix_mode (InstallExe.fix_mode m) = InstallExe.fix_mode m.
Proof.
  unfold InstallExe.fix_mode. apply Z.bits_inj'. intros n _.
  rewrite !Z.land_spec, !Z.lor_spec, !Z.land_spec, !Z.lor_spec.
  destruct (Z.testbit m n), (Z.testbit 365 n), (Z.testbit 4095 n); reflexivity.
Qed.

(** On a file whose mode is known, the loop body stores the fixed mode. *)
Lemma fix_file_stores (file : string) (old : Z) (s : InstallExe.state) :
  InstallExe.modes s !! file = Some old ->
  exists s',
    InstallExe.fix_file false file s = inr s' /\
    InstallExe.modes s'
    = <[file := InstallExe.fix_mode old]> (InstallExe.modes s).
Proof.
  intros Hold. unfold InstallExe.fix_file. rewrite Hold. cbn.
  eexists. split; reflexivity.
Qed.

(** C8: the mode fix is [(mode | 0o555) & 0o7777] and it is idempotent; on
    the disk, fixing an installed file a second time leaves every mode as
    the first fix set it. *)
Theorem fix_mode_idempotent (m : Z) :
  InstallExe.fix_mode m
  = Z.land (Z.lor m (5 * 8 ^ 2 + 5 * 8 + 5)) (7 * 8 ^ 3 + 7 * 8 ^ 2 + 7 * 8 + 7)
  /\ InstallExe.fix_mode (InstallExe.fix_mode m) = InstallExe.fix_mode m
  /\ forall (s : InstallExe.state) (file : string),
       exists once twice,
         InstallExe.fix_file false file (InstallExe.chmod file m s) = inr once
         /\ InstallExe.modes once !! file = Some (InstallExe.fix_mode m)
         /\ InstallExe.fix_file false file once = inr twice
         /\ InstallExe.modes twice = InstallExe.modes once.
Proof.
  split; [reflexivity |]. split; [apply fix_mode_fixed |].
  intros s file.
  destruct (fix_file_stores file m (InstallExe.chmod file m s))
    as (once & Hrun1 & Hmodes1).
  { cbn. apply lookup_insert_eq. }
  assert (InstallExe.modes once !! file = Some (InstallExe.fix_mode m))
    as Hlookup.
  { rewrite Hmodes1. apply lookup_insert_eq. }
  destruct (fix_file_stores file _ once Hlookup) as (twice & Hrun2 & Hmodes2).
  exists once, twice. repeat split; try done.
  rewrite Hmodes2, fix_mode_fixed. by apply insert_id.
Qed.

Example fix_mode_644 : InstallExe.fix_mode 420 = 493 /\ oct 493 = "755".
Proof. split; reflexivity. Qed.

(** ** Builders *)


Lemma build_all_actions (h : Host) (objs : ObjectNames) (conf : Config.t)
    (self : BuildQExt.t) (lib arch : string) (define : list Macro)
    (exts : list Extension) (acc : list Action * DataFiles) :
  BuildQExt.build_lib self = Some lib ->
  BuildQExt.define self = Some define ->
  BuildQExt.q_arch self = Some arch ->
  exists data_files,
    BuildQExt.build_all h objs conf self exts acc
    = inr (fst acc ++ flat_map (qext_actions h objs conf self lib define) exts,
           data_files).
Proof.
  intros Hlib Hdefine Harch. revert acc.
  induction exts as [| ext rest IH]; intros acc; cbn.
  - exists (snd acc). rewrite app_nil_r. by destruct acc.
  - unfold BuildQExt.build_one. rewrite Hlib, Hdefine, Harch. cbn.
    destruct (IH (fst acc ++
                  (if WINDOWS h then [Initialize; RemoveCompileOption "/MD"]
                   else []) ++
                  [Compile (sources ext) (BuildQExt.build_temp self)
                     (Some (BuildQExt.with_py3k h define))
                     (extra_compile_args ext) ["src/pyq"];
                   LinkSharedObject
                     (objs (sources ext) (BuildQExt.build_temp self))
                     (path_join h lib (BuildQExt.ext_filename h ext))
                     (Config.extra_link_args conf ++
                      (if WINDOWS h
                       then ["/DEF:src\pyq\" +:+ name ext +:+ ".def"]
                       else []))],
                  add_data_file (snd acc) (path_join h "q" arch)
                    (path_join h lib (BuildQExt.ext_filename h ext))))
      as (data_files & ->).
    exists data_files. cbn [fst]. unfold qext_actions at 2.
    by rewrite <- !app_assoc.
Qed.

Lemma link_outputs_qext (h : Host) (objs : ObjectNames) (conf : Config.t)
    (self : BuildQExt.t) (lib : string) (define : list Macro)
    (exts : list Extension) :
  link_outputs (flat_map (qext_actions h objs conf self lib define) exts)
  = map (fun ext => path_join h lib (BuildQExt.ext_filename h ext)) exts.
Proof.
  unfold link_outputs.
  induction exts as [| ext rest IH]; cbn; [done |].
  rewrite omap_app, IH. unfold qext_actions.
  by destruct (WINDOWS h).
Qed.

(** C9: [BuildQExt.run] links one shared object for each extension, and
    its file name, under the build directory, is the extension's name
    followed by [.dll] when the system is Windows and by [.so] on every
    other system. *)
Theorem qext_output_names (h : Host) (objs : ObjectNames) (conf : Config.t)
    (self : BuildQExt.t) (data_files : DataFiles) (lib arch : string)
    (define : list Macro) (exts : list Extension) :
  BuildQExt.build_lib self = Some lib ->
  BuildQExt.define self = Some define ->
  BuildQExt.q_arch self = Some arch ->
  BuildQExt.extensions self = Some exts ->
  exists actions data_files',
    BuildQExt.run h objs conf self data_files = inr (actions, data_files') /\
    link_outputs actions
    = map (fun ext =>
             path_join h lib
               (name ext +:+
                (if String.eqb (system h) "Windows" then ".dll" else ".so")))
        exts.
Proof.
  intros Hlib Hdefine Harch Hexts. unfold BuildQExt.run. rewrite Hexts. cbn.
  destruct (build_all_actions h objs conf self lib arch define exts
              ([], data_files) Hlib Hdefine Harch) as (data_files' & ->).
  exists (flat_map (qext_actions h objs conf self lib define) exts), data_files'.
  split; [done |]. apply link_outputs_qext.
Qed.

Example linux_qext_finalized :
  BuildQExt.finalize_options linux64 linux_conf linux_build
    (Some (qext_modules linux64)) BuildQExt.initial = inr linux_qext.
Proof. reflexivity. Qed.

Example windows_qext_finalized :
  BuildQExt.finalize_options windows64 windows_conf windows_build
    (Some (qext_modules windows64)) BuildQExt.initial = inr windows_qext.
Proof. reflexivity. Qed.

Lemma qext_output_names_witness :
  (exists actions data_files,
     BuildQExt.run linux64 dot_o linux_conf linux_qext []
     = inr (actions, data_files) /\
     link_outputs actions = ["build/qext.linux-x86_64/p.so"]) /\
  (exists actions data_files,
     BuildQExt.run windows64 dot_o windows_conf windows_qext []
     = inr (actions, data_files) /\
     link_outputs actions = ["build\qext.win-amd64\p.dll"]).
Proof.
  split.
  - apply (qext_output_names linux64 dot_o linux_conf linux_qext []
             "build/qext.linux-x86_64" "l64"
             [("KXVER", Some "3"); ("KXVER2", Some "6")]
             (qext_modules linux64)); reflexivity.
  - apply (qext_output_names windows64 dot_o windows_conf windows_qext []
             "build\qext.win-amd64" "w64"
             [("KXVER", Some "3"); ("KXVER2", Some "6")]
             (qext_modules windows64)); reflexivity.
Defined.

Lemma undefined_or_Some {A} (mine : option A) (x : A) :
  is_Some (undefined_or mine (Some x)).
Proof. destruct mine; cbn; eauto. Qed.

(** A token whose major component is one character long starts with it. *)
Lemma first_char_major (token major : string) :
  major_component token = Some major ->
  String.length major = 1%nat ->
  first_char token = inr major.
Proof.
  unfold major_component.
  destruct token as [| c rest]; cbn.
  - by intros [= <-].
  - destruct (Ascii.eqb c "."); cbn; [by intros [= <-] |].
    destruct (split_on "." rest) as [| l ls]; cbn; intros [= <-]; [done |].
    destruct l; [done | discriminate].
Qed.

(** C6: the claim holds of [build_qext] and fails of [build_exe] at a
    major component of two digits: [q.k] with the line [k:10.0;] gives the
    token [10.], whose major component is [10]; [build_qext] defines
    [KXVER] as [10], the first component of the split at the dots, while
    [build_exe] defines it as [1], the first character. *)
Theorem kxver_two_digit_major :
  get_q_version linux64 q10_disk "/home/u/q" = inr "10." /\
  major_component "10." = Some "10" /\
  (exists qext',
     BuildQExt.finalize_options linux64 q10_conf linux_build
       (Some (qext_modules linux64)) BuildQExt.initial = inr qext' /\
     BuildQExt.define qext'
     = Some [("KXVER", Some "10"); ("KXVER2", Some "")]) /\
  exists exe',
    BuildExe.finalize_options linux64 q10_conf linux_build BuildExe.initial
    = inr exe' /\
    BuildExe.define exe' = Some [("KXVER", Some "1"); ("QARCH", Some "l64")] /\
    ("KXVER", Some "10") ∉ [("KXVER", Some "1"); ("QARCH", Some "l64")].
Proof.
  split; [reflexivity |]. split; [reflexivity |]. split.
  - eexists. split; reflexivity.
  - eexists. split; [reflexivity |]. split; [reflexivity |].
    rewrite !not_elem_of_cons. repeat split; try discriminate.
    apply not_elem_of_nil.
Qed.

(** A token without a dot has no second component for [build_qext]. *)
Example kxver_no_minor :
  BuildQExt.kxver_macros (Some "3") = inl IndexError.
Proof. reflexivity. Qed.

(** ** The persisted configuration *)

Lemma append_String (c : ascii) (a b : string) :
  String c a +:+ b = String c (a +:+ b).
Proof. reflexivity. Qed.

Lemma single_line_app (a b : string) :
  single_line (a +:+ b) = single_line a && single_line b.
Proof.
  induction a as [| c a IH]; [done |].
  rewrite append_String. cbn. rewrite IH. by rewrite andb_assoc.
Qed.

(** A value without a line break is read back as one line. *)
Lemma split_on_line (a rest : string) :
  single_line a = true ->
  split_on newline (a +:+ nl +:+ rest) = a :: split_on newline rest.
Proof.
  induction a as [| c a IH]; [done |].
  rewrite append_String. cbn.
  intros [Hc Ha]%andb_true_iff. apply negb_true_iff in Hc.
  by rewrite Hc, (IH Ha).
Qed.

Lemma split_on_last_line (a : string) :
  single_line a = true ->
  split_on newline (a +:+ nl) = [a; ""].
Proof.
  intros Ha. change (a +:+ nl) with (a +:+ nl +:+ "").
  by rewrite split_on_line.
Qed.

Lemma parse_cfg_SETUP_CFG (home version arch dll : string) :
  single_line home = true ->
  single_line version = true ->
  single_line arch = true ->
  single_line dll = true ->
  parse_cfg (SETUP_CFG home version arch dll)
  = [("q_home", home); ("q_version", version); ("q_arch", arch);
     ("python_dll", dll)].
Proof.
  intros Hhome Hversion Harch Hdll. unfold parse_cfg, SETUP_CFG.
  rewrite !split_on_line by (unfold cfg_line; by rewrite ?single_line_app).
  rewrite split_on_last_line by (unfold cfg_line; by rewrite ?single_line_app).
  clear. by destruct home, version, arch, dll.
Qed.

(** C7, as the code has it: for a finalized configuration whose four values
    each fit on one line, [run] leaves the command object as it was; with
    the write option it stores under [dest] the text of [SETUP_CFG], whose
    [key = value] lines read back as exactly the keys q_home, q_version,
    q_arch and python_dll with the four values; without the write option
    the files are left as they were. *)
Theorem config_run_persists (s : Config.state)
    (home version arch dll path : string) :
  Config.q_home (Config.self s) = Some home ->
  Config.q_version (Config.self s) = Some version ->
  Config.q_arch (Config.self s) = Some arch ->
  Config.python_dll (Config.self s) = Some dll ->
  Config.dest (Config.self s) = Some path ->
  single_line home = true ->
  single_line version = true ->
  single_line arch = true ->
  single_line dll = true ->
  exists s',
    Config.run s = inr s' /\
    Config.self s' = Config.self s /\
    Config.disk s'
    = (if flag_set (Config.write (Config.self s))
       then <[path := SETUP_CFG home version arch dll]> (Config.disk s)
       else Config.disk s) /\
    parse_cfg (SETUP_CFG home version arch dll)
    = [("q_home", home); ("q_version", version); ("q_arch", arch);
       ("python_dll", dll)].
Proof.
  intros Hhome Hversion Harch Hdll Hdest L1 L2 L3 L4.
  unfold Config.run, Config.render.
  rewrite Hhome, Hversion, Harch, Hdll. cbn.
  rewrite Hdest. cbn.
  destruct (flag_set (Config.write (Config.self s))); cbn;
    eexists; (split; [reflexivity |]); (split; [reflexivity |]);
    (split; [reflexivity |]); by apply parse_cfg_SETUP_CFG.
Qed.


Lemma config_run_persists_witness :
  exists s',
    Config.run (fresh linux_conf_write) = inr s' /\
    Config.self s' = linux_conf_write /\
    Config.disk s'
    = {[ "setup.cfg" :=
           SETUP_CFG "/home/u/q" "3.6" "l64" "/usr/lib/libpython3.6m.so.1.0" ]}
    /\ parse_cfg
         (SETUP_CFG "/home/u/q" "3.6" "l64" "/usr/lib/libpython3.6m.so.1.0")
       = [("q_home", "/home/u/q"); ("q_version", "3.6"); ("q_arch", "l64");
          ("python_dll", "/usr/lib/libpython3.6m.so.1.0")].
Proof.
  apply (config_run_persists (fresh linux_conf_write) "/home/u/q" "3.6" "l64"
           "/usr/lib/libpython3.6m.so.1.0" "setup.cfg"); reflexivity.
Defined.

(** C7 as stated fails for values that hold a line break: two different
    configurations are written as the same text, so no reader of the text
    gives back the values of both. *)
Lemma persisted_text_ambiguous :
  SETUP_CFG "/q" ("3.6" +:+ nl +:+ "q_version = 3.5") "l64" "python36.dll"
  = SETUP_CFG ("/q" +:+ nl +:+ "q_version = 3.6") "3.5" "l64" "python36.dll"
  /\ forall reader : string -> string * string * string * string,
       ~ (reader (SETUP_CFG "/q" ("3.6" +:+ nl +:+ "q_version = 3.5") "l64"
                    "python36.dll")
          = ("/q", "3.6" +:+ nl +:+ "q_version = 3.5", "l64", "python36.dll")
          /\ reader (SETUP_CFG ("/q" +:+ nl +:+ "q_version = 3.6") "3.5" "l64"
                       "python36.dll")
             = ("/q" +:+ nl +:+ "q_version = 3.6", "3.5", "l64",
                "python36.dll")).
Proof.
  assert (SETUP_CFG "/q" ("3.6" +:+ nl +:+ "q_version = 3.5") "l64"
            "python36.dll"
          = SETUP_CFG ("/q" +:+ nl +:+ "q_version = 3.6") "3.5" "l64"
              "python36.dll") as Hsame by reflexivity.
  split; [exact Hsame |].
  intros reader [Hfirst Hsecond]. rewrite Hsame, Hsecond in Hfirst.
  discriminate Hfirst.
Qed.

(** * Further properties of the code *)

(** ** Registering data files *)

(** X1: after [add_data_file], the target's files are the ones it had,
    followed by the source unless it was among them already; the files of
    every other target are as before. *)
Theorem add_data_file_files_for (data_files : DataFiles)
    (target source other : string) :
  files_for (add_data_file data_files target source) other
  = if String.eqb other target
    then Some (let f := default [] (files_for data_files target) in
               if bool_decide (source ∈ f) then f else f ++ [source])
    else files_for data_files other.
Proof.
  induction data_files as [| [t f] rest IH]; cbn.
  - rewrite String.eqb_sym. by destruct (String.eqb other target).
  - destruct (String.eqb_spec t target) as [-> | Hne]; cbn.
    + destruct (String.eqb_spec target other) as [<- | Hother].
      * by rewrite String.eqb_refl.
      * by rewrite (eqb_false_of_ne other target).
    + destruct (String.eqb_spec t other) as [<- | Hother]; [| exact IH].
      by rewrite (eqb_false_of_ne t target).
Qed.

(** X2: registering the same source for the same target a second time
    changes nothing. *)
Theorem add_data_file_idempotent (data_files : DataFiles)
    (target source : string) :
  add_data_file (add_data_file data_files target source) target source
  = add_data_file data_files target source.
Proof.
  induction data_files as [| [t f] rest IH]; cbn.
  - rewrite String.eqb_refl. by rewrite bool_decide_eq_true_2 by set_solver.
  - destruct (String.eqb t target) eqn:Ht; cbn; rewrite Ht.
    + f_equal. f_equal. destruct (bool_decide (source ∈ f)) eqn:Hin.
      * by rewrite Hin.
      * by rewrite bool_decide_eq_true_2 by set_solver.
    + by rewrite IH.
Qed.

(** X3: [add_data_file] keeps the targets and their order; a target that
    was not there is appended at the end. *)
Theorem add_data_file_targets (data_files : DataFiles)
    (target source : string) :
  map fst (add_data_file data_files target source)
  = if bool_decide (target ∈ map fst data_files)
    then map fst data_files
    else map fst data_files ++ [target].
Proof.
  induction data_files as [| [t f] rest IH]; cbn.
  - by rewrite bool_decide_eq_false_2 by set_solver.
  - destruct (String.eqb_spec t target) as [-> | Hne]; cbn.
    + by rewrite bool_decide_eq_true_2 by set_solver.
    + rewrite IH. case_bool_decide as Hin.
      * by rewrite bool_decide_eq_true_2 by (by right).
      * rewrite bool_decide_eq_false_2; [done |].
        by intros [? | ?]%elem_of_cons.
Qed.

(** X4: when no target's list names a file twice, [add_data_file] keeps it
    so. *)
Theorem add_data_file_NoDup (data_files : DataFiles)
    (target source : string) :
  Forall (fun entry => NoDup (snd entry)) data_files ->
  Forall (fun entry => NoDup (snd entry))
    (add_data_file data_files target source).
Proof.
  induction 1 as [| [t f] rest Hf Hrest IH]; cbn.
  - repeat constructor. set_solver.
  - destruct (String.eqb t target); constructor; try done. cbn in *.
    case_bool_decide as Hin; [done |].
    apply NoDup_app. repeat split; [done | | apply NoDup_singleton].
    by intros x Hx ->%list_elem_of_singleton.
Qed.

Lemma add_data_file_NoDup_witness :
  Forall (fun entry => NoDup (snd entry))
    (add_data_file metadata_data_files "q" "build/qlib/pyq-config.q").
Proof.
  apply (add_data_file_NoDup metadata_data_files "q" "build/qlib/pyq-config.q").
  compute_done.
Defined.

(** ** Fixing the modes of the installed executables *)

(** X5: the fixed mode lies within the permission bits [0o7777], has the
    read and execute bits of owner, group and world set, and keeps every
    permission bit that the old mode had. *)
Theorem fix_mode_bits (m : Z) :
  0 <= InstallExe.fix_mode m <= 4095 /\
  Z.land (InstallExe.fix_mode m) 365 = 365 /\
  Z.land (InstallExe.fix_mode m) (Z.land m 4095) = Z.land m 4095.
Proof.
  unfold InstallExe.fix_mode. repeat split.
  - apply Z.land_nonneg. by right.
  - change 4095 with (Z.ones 12). rewrite Z.land_ones by done.
    pose proof (Z.mod_pos_bound (Z.lor m 365) (2 ^ 12) eq_refl) as Hbound.
    change (Z.ones 12) with (2 ^ 12 - 1). lia.
  - apply Z.bits_inj'. intros n _.
    rewrite !Z.land_spec, !Z.lor_spec.
    assert (Z.testbit 365 n = true -> Z.testbit 4095 n = true) as Hsub.
    { intros Hbit. destruct (decide (n < 12)) as [Hlt | Hge].
      - change 4095 with (Z.ones 12).
        destruct (decide (0 <= n)); [by apply Z.ones_spec_low |].
        by rewrite Z.testbit_neg_r in Hbit by lia.
      - rewrite (Z.bits_above_log2 365 n) in Hbit; [done | done |].
        change (Z.log2 365) with 8. lia. }
    destruct (Z.testbit m n), (Z.testbit 365 n), (Z.testbit 4095 n);
      try reflexivity; by specialize (Hsub eq_refl).
  - apply Z.bits_inj'. intros n _.
    rewrite !Z.land_spec, !Z.lor_spec.
    by destruct (Z.testbit m n), (Z.testbit 365 n), (Z.testbit 4095 n).
Qed.

Lemma fix_files_dry_run (outfiles : list string) (s : InstallExe.state) :
  exists s',
    InstallExe.fix_files true outfiles s = inr s' /\
    InstallExe.modes s' = InstallExe.modes s /\
    length (InstallExe.announced s')
    = (length (InstallExe.announced s) + length outfiles)%nat.
Proof.
  revert s. induction outfiles as [| file rest IH]; intros s; cbn.
  - exists s. repeat split; try done; cbn; lia.
  - destruct (IH (InstallExe.announce ("changing mode of " +:+ file) 2 s))
      as (s' & Hrun & Hmodes & Hlen).
    exists s'. split; [done |]. split; [done |].
    rewrite Hlen. cbn. rewrite length_app. cbn. lia.
Qed.

(** X6: a dry run never fails, not even on a file that is missing, and
    changes no mode; it announces once for every installed file when there
    are executables to install and the host is POSIX, and not at all
    otherwise. *)
Theorem install_exe_dry_run (h : Host) (inputs : list Extension)
    (outfiles : list string) (s : InstallExe.state) :
  exists s',
    InstallExe.run h true inputs outfiles s = inr s' /\
    InstallExe.modes s' = InstallExe.modes s /\
    length (InstallExe.announced s')
    = (length (InstallExe.announced s) +
       match inputs with
       | [] => 0
       | _ :: _ =>
           if String.eqb (os_name h) "posix" then length outfiles else 0
       end)%nat.
Proof.
  unfold InstallExe.run. destruct inputs as [| input inputs].
  - exists s. repeat split; try done; cbn; lia.
  - destruct (String.eqb (os_name h) "posix").
    + apply fix_files_dry_run.
    + exists s. repeat split; try done; cbn; lia.
Qed.

Lemma fix_files_modes (outfiles : list string) (s : InstallExe.state) :
  Forall (fun file => is_Some (InstallExe.modes s !! file)) outfiles ->
  exists s',
    InstallExe.fix_files false outfiles s = inr s' /\
    forall file,
      InstallExe.modes s' !! file
      = if bool_decide (file ∈ outfiles)
        then InstallExe.fix_mode <$> InstallExe.modes s !! file
        else InstallExe.modes s !! file.
Proof.
  revert s. induction outfiles as [| f rest IH]; intros s Hall.
  - exists s. split; [done |]. intros file.
    by rewrite bool_decide_eq_false_2 by apply not_elem_of_nil.
  - apply Forall_cons in Hall as [[old Hold] Hrest].
    destruct (fix_file_stores f old s Hold) as (s1 & Hstep & Hmodes1).
    destruct (IH s1) as (s' & Hrun & Hmodes').
    { eapply Forall_impl; [exact Hrest |]. intros file [m Hm]. cbn.
      rewrite Hmodes1. destruct (decide (f = file)) as [<- | Hne].
      - rewrite lookup_insert_eq. eauto.
      - rewrite lookup_insert_ne by done. eauto. }
    exists s'. split.
    { cbn [InstallExe.fix_files]. rewrite Hstep. exact Hrun. }
    intros file. rewrite Hmodes', Hmodes1.
    destruct (decide (f = file)) as [<- | Hne].
    + rewrite lookup_insert_eq, Hold.
      rewrite (bool_decide_eq_true_2 (f ∈ f :: rest)) by left.
      case_bool_decide; cbn; [by rewrite fix_mode_fixed | done].
    + rewrite lookup_insert_ne by done.
      case_bool_decide as Hin.
      * by rewrite bool_decide_eq_true_2 by (by right).
      * rewrite bool_decide_eq_false_2; [done |].
        by intros [? | ?]%elem_of_cons.
Qed.

(** X7: on a POSIX host with executables to install, when every installed
    file can be examined, [run] succeeds, gives each installed file the
    fixed mode of the mode it had (also a file listed more than once), and
    leaves the mode of every other file alone. *)
Theorem install_exe_fixes_outputs (h : Host) (input : Extension)
    (inputs : list Extension) (outfiles : list string)
    (s : InstallExe.state) :
  os_name h = "posix" ->
  Forall (fun file => is_Some (InstallExe.modes s !! file)) outfiles ->
  exists s',
    InstallExe.run h false (input :: inputs) outfiles s = inr s' /\
    forall file,
      InstallExe.modes s' !! file
      = if bool_decide (file ∈ outfiles)
        then InstallExe.fix_mode <$> InstallExe.modes s !! file
        else InstallExe.modes s !! file.
Proof.
  intros Hposix Hall. unfold InstallExe.run. rewrite Hposix. cbn.
  by apply fix_files_modes.
Qed.

Lemma install_exe_fixes_outputs_witness :
  exists s',
    InstallExe.run linux64 false (executables linux64)
      ["/usr/bin/pyq"; "/usr/bin/pyq"] installed_modes = inr s' /\
    forall file,
      InstallExe.modes s' !! file
      = if bool_decide (file ∈ ["/usr/bin/pyq"; "/usr/bin/pyq"])
        then InstallExe.fix_mode <$> InstallExe.modes installed_modes !! file
        else InstallExe.modes installed_modes !! file.
Proof.
  apply (install_exe_fixes_outputs linux64 _ [] ["/usr/bin/pyq"; "/usr/bin/pyq"]
           installed_modes); [reflexivity |].
  repeat constructor; by exists 33188.
Defined.

(** X8: when an installed file cannot be examined, [run] fails with the
    error for the first such file. *)
Theorem install_exe_missing_file (h : Host) (input : Extension)
    (inputs : list Extension) (before after : list string)
    (missing : string) (s : InstallExe.state) :
  os_name h = "posix" ->
  Forall (fun file => is_Some (InstallExe.modes s !! file)) before ->
  InstallExe.modes s !! missing = None ->
  InstallExe.run h false (input :: inputs) (before ++ missing :: after) s
  = inl (IOError missing).
Proof.
  intros Hposix Hbefore Hmissing. unfold InstallExe.run. rewrite Hposix. cbn.
  revert s Hbefore Hmissing.
  induction before as [| f rest IH]; intros s Hbefore Hmissing.
  - cbn. unfold InstallExe.fix_file. by rewrite Hmissing.
  - apply Forall_cons in Hbefore as [[old Hold] Hrest].
    simpl app. cbn [InstallExe.fix_files].
    destruct (fix_file_stores f old s Hold) as (s1 & -> & Hmodes1).
    cbn [bind].
    assert (f ≠ missing) as Hne by (intros ->; congruence).
    apply IH.
    + eapply Forall_impl; [exact Hrest |]. intros file [m Hm]. cbn.
      rewrite Hmodes1. destruct (decide (f = file)) as [<- | Hne'].
      * rewrite lookup_insert_eq. eauto.
      * rewrite lookup_insert_ne by done. eauto.
    + rewrite Hmodes1. by rewrite lookup_insert_ne.
Qed.

Lemma install_exe_missing_file_witness :
  InstallExe.run linux64 false (executables linux64)
    (["/usr/bin/pyq"] ++ "/usr/bin/gone" :: ["/usr/bin/other"]) installed_modes
  = inl (IOError "/usr/bin/gone").
Proof.
  apply (install_exe_missing_file linux64 _ [] ["/usr/bin/pyq"]
           ["/usr/bin/other"] "/usr/bin/gone" installed_modes);
    [reflexivity | | reflexivity].
  repeat constructor; by exists 33188.
Defined.

(** ** Finalizing the configuration *)

Lemma or_discover_given {A} (o : option A) (discover : Result A) (v x : A) :
  or_discover o discover = inr x -> o = Some v -> x = v.
Proof. intros Hret ->. cbn in Hret. by injection Hret. Qed.

(** The shape of a successful [finalize_options]. *)
Lemma finalize_options_inr (h : Host) (d : Disk) (env : gmap string string)
    (tools : Tool) (self conf : Config.t) :
  Config.finalize_options h d env tools self = inr conf ->
  exists home arch version dll dst,
    or_discover (Config.q_home self) (get_q_home h d env) = inr home /\
    or_discover (Config.q_arch self) (get_q_arch h d home) = inr arch /\
    or_discover (Config.q_version self) (get_q_version h d home) = inr version /\
    or_discover (Config.python_dll self)
      (snd (get_python_dll h tools (executable h))) = inr dll /\
    or_discover (Config.dest self) (ret "setup.cfg") = inr dst /\
    conf = {| Config.q_home := Some home; Config.q_arch := Some arch;
              Config.q_version := Some version; Config.python_dll := Some dll;
              Config.dest := Some dst; Config.write := Config.write self;
              Config.extra_link_args :=
                if WINDOWS h then ["src\pyq\kx\" +:+ arch +:+ "\q.lib"]
                else Config.extra_link_args self |}.
Proof.
  unfold Config.finalize_options.
  destruct (or_discover (Config.q_home self) _) as [e | home] eqn:H1; [done |].
  cbn [bind].
  destruct (or_discover (Config.q_arch self) _) as [e | arch] eqn:H2; [done |].
  cbn [bind].
  destruct (or_discover (Config.q_version self) _) as [e | version] eqn:H3; [done |].
  cbn [bind].
  destruct (or_discover (Config.python_dll self) _) as [e | dll] eqn:H4; [done |].
  cbn [bind].
  destruct (or_discover (Config.dest self) _) as [e | dst] eqn:H5; [done |].
  cbn [bind]. intros [= <-]. by exists home, arch, version, dll, dst.
Qed.

(** X9: [finalize_options] never replaces a value that was given: each of
    q_home, q_arch, q_version, python_dll and dest that the command object
    holds is the value of the finalized object, and the write flag is
    carried over. *)
Theorem finalize_options_keeps_given (h : Host) (d : Disk)
    (env : gmap string string) (tools : Tool) (self conf : Config.t) :
  Config.finalize_options h d env tools self = inr conf ->
  (forall v, Config.q_home self = Some v -> Config.q_home conf = Some v) /\
  (forall v, Config.q_arch self = Some v -> Config.q_arch conf = Some v) /\
  (forall v, Config.q_version self = Some v ->
             Config.q_version conf = Some v) /\
  (forall v, Config.python_dll self = Some v ->
             Config.python_dll conf = Some v) /\
  (forall v, Config.dest self = Some v -> Config.dest conf = Some v) /\
  Config.write conf = Config.write self.
Proof.
  intros (home & arch & version & dll & dst & H1 & H2 & H3 & H4 & H5 & ->)
    %finalize_options_inr.
  cbn. repeat split; try done; intros v Hv; f_equal.
  - exact (or_discover_given _ _ _ _ H1 Hv).
  - exact (or_discover_given _ _ _ _ H2 Hv).
  - exact (or_discover_given _ _ _ _ H3 Hv).
  - exact (or_discover_given _ _ _ _ H4 Hv).
  - exact (or_discover_given _ _ _ _ H5 Hv).
Qed.

Lemma finalize_options_keeps_given_witness :
  exists conf,
    Config.finalize_options linux64 empty_disk ∅ silent_tools given_conf
    = inr conf /\
    Config.q_home conf = Some "/opt/q" /\
    Config.q_version conf = Some "3.4".
Proof.
  eexists. split; [reflexivity |].
  destruct (finalize_options_keeps_given linux64 empty_disk ∅ silent_tools
              given_conf _ eq_refl) as (Hhome & _ & Hversion & _).
  split; [by apply Hhome | by apply Hversion].
Defined.

(** X10: a finalized configuration is complete: all of q_home, q_arch,
    q_version, python_dll and dest hold a value, so that [run] on it
    succeeds whatever the files and the earlier announcements are; on
    Windows its link arguments name [q.lib] in the directory of its
    q_arch, elsewhere they are the ones it had. *)
Theorem finalize_options_then_run (h : Host) (d : Disk)
    (env : gmap string string) (tools : Tool) (self conf : Config.t) :
  Config.finalize_options h d env tools self = inr conf ->
  exists home arch version dll dst,
    Config.q_home conf = Some home /\
    Config.q_arch conf = Some arch /\
    Config.q_version conf = Some version /\
    Config.python_dll conf = Some dll /\
    Config.dest conf = Some dst /\
    Config.extra_link_args conf
    = (if WINDOWS h then ["src\pyq\kx\" +:+ arch +:+ "\q.lib"]
       else Config.extra_link_args self) /\
    forall disk announced,
      exists s',
        Config.run {| Config.self := conf; Config.disk := disk;
                      Config.announced := announced |} = inr s'.
Proof.
  intros (home & arch & version & dll & dst & _ & _ & _ & _ & _ & ->)
    %finalize_options_inr.
  exists home, arch, version, dll, dst. cbn. repeat split.
  intros disk announced. unfold Config.run, Config.render. cbn.
  destruct (flag_set (Config.write self)); cbn; eauto.
Qed.

Lemma finalize_options_then_run_witness :
  Config.finalize_options linux64 full_disk {[ "HOME" := "/home/u" ]}
    cache_tools Config.initial = inr discovered_conf /\
  exists s', Config.run (fresh discovered_conf) = inr s'.
Proof.
  assert (Config.finalize_options linux64 full_disk {[ "HOME" := "/home/u" ]}
            cache_tools Config.initial = inr discovered_conf) as Hfinal
    by reflexivity.
  split; [exact Hfinal |].
  destruct (finalize_options_then_run linux64 full_disk
              {[ "HOME" := "/home/u" ]} cache_tools Config.initial
              discovered_conf Hfinal)
    as (home & arch & version & dll & dst & _ & _ & _ & _ & _ & _ & Hrun).
  exact (Hrun ∅ []).
Defined.

(** X11: when q_home, q_arch, q_version and python_dll are all given,
    [finalize_options] succeeds on every host, disk and environment and
    whatever the tools print: nothing is discovered, and dest is
    [setup.cfg] unless it was given. *)
Theorem finalize_options_all_given (h : Host) (d : Disk)
    (env : gmap string string) (tools : Tool) (self : Config.t)
    (home arch version dll : string) :
  Config.q_home self = Some home ->
  Config.q_arch self = Some arch ->
  Config.q_version self = Some version ->
  Config.python_dll self = Some dll ->
  Config.finalize_options h d env tools self
  = inr {| Config.q_home := Some home; Config.q_arch := Some arch;
           Config.q_version := Some version; Config.python_dll := Some dll;
           Config.dest := Some (default "setup.cfg" (Config.dest self));
           Config.write := Config.write self;
           Config.extra_link_args :=
             if WINDOWS h then ["src\pyq\kx\" +:+ arch +:+ "\q.lib"]
             else Config.extra_link_args self |}.
Proof.
  intros Hhome Harch Hversion Hdll. unfold Config.finalize_options.
  rewrite Hhome, Harch, Hversion, Hdll. cbn.
  by destruct (Config.dest self).
Qed.

Lemma finalize_options_all_given_witness :
  Config.finalize_options freebsd64 empty_disk ∅ silent_tools given_conf
  = inr {| Config.q_home := Some "/opt/q"; Config.q_arch := Some "l32";
           Config.q_version := Some "3.4";
           Config.python_dll := Some "/opt/lib/libpython2.7.so";
           Config.dest := Some "setup.cfg"; Config.write := Some 1;
           Config.extra_link_args := [] |}.
Proof.
  apply (finalize_options_all_given freebsd64 empty_disk ∅ silent_tools
           given_conf "/opt/q" "l32" "3.4" "/opt/lib/libpython2.7.so");
    reflexivity.
Defined.

(** ** Discovery *)

(** X12: for a resolved OS letter, [get_q_arch] on a 64-bit host whose
    runtime home has the directory [<letter>64] returns [<letter>64], and on
    a 32-bit host it returns [<letter>32] whatever is on the disk. *)
Theorem get_q_arch_widths (h : Host) (d : Disk) (q_home letter : string) :
  get_q_os_letter (system h) (machine h) = inr letter ->
  (bit_length (maxsize h + 1) = 64 ->
   isdir d (path_join h q_home (letter +:+ "64")) = true ->
   get_q_arch h d q_home = inr (letter +:+ "64")) /\
  (bit_length (maxsize h + 1) = 32 ->
   get_q_arch h d q_home = inr (letter +:+ "32")).
Proof.
  intros Hletter. unfold get_q_arch. rewrite Hletter. cbn [bind].
  split.
  - intros -> ->. reflexivity.
  - intros ->. reflexivity.
Qed.

Lemma get_q_arch_widths_witness :
  get_q_arch linux64 full_disk "/home/u/q" = inr "l64" /\
  get_q_arch linux32 full_disk "/home/u/q" = inr "l32".
Proof.
  split.
  - apply (get_q_arch_widths linux64 full_disk "/home/u/q" "l");
      reflexivity.
  - apply (get_q_arch_widths linux32 full_disk "/home/u/q" "l");
      reflexivity.
Defined.

(** X13: a path that [get_q_home] returns is the non-empty value of QHOME
    or an existing directory. *)
Theorem get_q_home_sound (h : Host) (d : Disk) (env : gmap string string)
    (p : string) :
  get_q_home h d env = inr p ->
  (env !! "QHOME" = Some p /\ p ≠ "") \/ isdir d p = true.
Proof.
  unfold get_q_home.
  destruct (truthy (env !! "QHOME")) as [q |] eqn:Hq.
  { intros [= <-]. left. by apply truthy_Some. }
  destruct (prefix_candidates h d env ["VIRTUAL_ENV"; "HOME"]) as [q |] eqn:Hc.
  { intros [= <-]. right. by apply prefix_candidates_isdir in Hc. }
  destruct (WINDOWS h); [| discriminate].
  destruct (env !! "SystemDrive") as [drive |]; [| discriminate].
  destruct (isdir d (path_join h drive "\q")) eqn:Hdir; [| discriminate].
  intros [= <-]. by right.
Qed.

Lemma get_q_home_sound_witness :
  isdir full_disk "/home/u/q" = true.
Proof.
  assert (get_q_home linux64 full_disk {[ "HOME" := "/home/u" ]}
          = inr "/home/u/q") as Hhome by reflexivity.
  destruct (get_q_home_sound linux64 full_disk {[ "HOME" := "/home/u" ]}
              "/home/u/q" Hhome) as [[Hq _] | Hdir].
  - discriminate Hq.
  - exact Hdir.
Defined.

(** The loop over the prefix variables reads only those variables. *)
Lemma prefix_candidates_ext (h : Host) (d : Disk)
    (env env' : gmap string string) (vs : list string) :
  Forall (fun v => env !! v = env' !! v) vs ->
  prefix_candidates h d env vs = prefix_candidates h d env' vs.
Proof.
  induction 1 as [| v vs Hv _ IH]; cbn; [done |].
  by rewrite Hv, IH.
Qed.

(** X14: an empty QHOME counts as no QHOME: [get_q_home] gives the same
    with QHOME set to the empty string as with QHOME removed. *)
Theorem get_q_home_empty_QHOME (h : Host) (d : Disk)
    (env : gmap string string) :
  get_q_home h d (<["QHOME" := ""]> env)
  = get_q_home h d (delete "QHOME" env).
Proof.
  unfold get_q_home.
  rewrite (prefix_candidates_ext h d (<["QHOME" := ""]> env)
             (delete "QHOME" env)).
  - rewrite lookup_insert_eq, lookup_delete_eq.
    by rewrite lookup_insert_ne, lookup_delete_ne.
  - repeat constructor; by rewrite lookup_insert_ne, lookup_delete_ne.
Qed.

Lemma substring_length_le (n m : nat) (s : string) :
  (String.length (String.substring n m s) <= m)%nat.
Proof.
  revert n m. induction s as [| c s IH]; intros [| n] [| m]; cbn;
    try lia.
  - specialize (IH 0%nat m). lia.
  - apply (IH n 0%nat).
  - apply (IH n (S m)).
Qed.

Lemma scan_version_length (lines : list string) (failure : option PyError)
    (token : string) :
  scan_version lines failure = inr token ->
  (String.length token <= 3)%nat.
Proof.
  induction lines as [| line rest IH]; cbn.
  - destruct failure; [discriminate |]. intros [= <-]. cbn. lia.
  - destruct (startswith line "k:"); [| exact IH].
    intros [= <-]. apply substring_length_le.
Qed.

(** X15: a version token that [get_q_version] returns has at most three
    characters. *)
Theorem get_q_version_short (h : Host) (d : Disk) (q_home token : string) :
  get_q_version h d q_home = inr token ->
  (String.length token <= 3)%nat.
Proof.
  unfold get_q_version.
  destruct (files d !! path_join h q_home "q.k"); [| discriminate].
  apply scan_version_length.
Qed.

Lemma get_q_version_short_witness : (String.length "3.6" <= 3)%nat.
Proof.
  assert (get_q_version linux64 q36_disk "/home/u/q" = inr "3.6") as Hversion
    by reflexivity.
  exact (get_q_version_short linux64 q36_disk "/home/u/q" "3.6" Hversion).
Defined.

Lemma universal_lines_line (l t : string) :
  plain_line l = true ->
  universal_lines (l +:+ nl +:+ t) = (l +:+ nl) :: universal_lines t.
Proof.
  induction l as [| c l IH]; [done |].
  rewrite !append_String. cbn.
  intros [[Hc Hr]%andb_true_iff Hl]%andb_true_iff.
  apply negb_true_iff in Hc, Hr.
  by rewrite Hc, Hr, (IH Hl).
Qed.

Lemma universal_lines_first (a rest : string) :
  a ≠ "" ->
  plain_line a = true ->
  exists tail ls, universal_lines (a +:+ rest) = (a +:+ tail) :: ls.
Proof.
  induction a as [| c a IH]; [done |]. intros _.
  rewrite append_String. cbn.
  intros [[Hc Hr]%andb_true_iff Ha]%andb_true_iff.
  apply negb_true_iff in Hc, Hr. rewrite Hc, Hr.
  destruct a as [| c' a].
  - destruct (universal_lines ("" +:+ rest)) as [| l ls];
      [by exists "", [] |].
    by exists l, ls.
  - destruct (IH ltac:(done) Ha) as (tail & ls & ->). by exists tail, ls.
Qed.

Lemma plain_line_app (a b : string) :
  plain_line (a +:+ b) = plain_line a && plain_line b.
Proof.
  induction a as [| c a IH]; [done |].
  rewrite append_String. cbn. rewrite IH. by rewrite andb_assoc.
Qed.

Lemma startswith_line (l : string) :
  startswith (l +:+ nl) "k:" = startswith l "k:".
Proof.
  destruct l as [| c1 [| c2 l]]; [done | |].
  - unfold startswith.
    change (String c1 "" +:+ nl) with (String c1 (String newline "")).
    cbn -[ascii_dec]. by destruct (ascii_dec "k" c1).
  - unfold startswith. rewrite !append_String. cbn -[ascii_dec].
    destruct (ascii_dec "k" c1), (ascii_dec ":" c2); try done.
    by destruct l.
Qed.

(** X16: a [q.k] whose text announces a three-character version at the
    start of a line, after any lines that do not start with [k:], is read
    back as that version. *)
Theorem get_q_version_reads_back (h : Host) (d : Disk) (q_home : string)
    (before : list string) (v rest : string) :
  Forall (fun line => plain_line line = true
                      /\ startswith line "k:" = false) before ->
  String.length v = 3%nat ->
  plain_line v = true ->
  files d !! path_join h q_home "q.k"
  = Some (text_file (qk_text before v rest)) ->
  get_q_version h d q_home = inr v.
Proof.
  intros Hbefore Hlen Hv Hfile. unfold get_q_version. rewrite Hfile.
  cbn [text_file text_lines text_error]. unfold qk_text. clear Hfile.
  induction Hbefore as [| line before [Hline Hk] _ IH]; cbn [foldr].
  - destruct (universal_lines_first ("k:" +:+ v) rest)
      as (tail & ls & Hlines); [done | by rewrite plain_line_app |].
    change (("k:" +:+ v) +:+ rest) with ("k:" +:+ v +:+ rest) in Hlines.
    rewrite Hlines.
    destruct v as [| a [| b [| c [| ? ?]]]]; try discriminate Hlen.
    by destruct tail.
  - rewrite (universal_lines_line line _ Hline). cbn [scan_version].
    by rewrite startswith_line, Hk.
Qed.

Lemma get_q_version_reads_back_witness :
  get_q_version linux64 q36_disk "/home/u/q" = inr "3.6".
Proof.
  apply (get_q_version_reads_back linux64 q36_disk "/home/u/q"
           ["/ kdb+ startup"] "3.6" (";" +:+ nl)); try reflexivity.
  repeat constructor.
Defined.

(** ** Locating the host library *)










Lemma replace_absent (old new s : string) :
  contains old s = false -> replace old new s = s.
Proof.
  unfold replace. induction s as [| c s IH]; [done |].
  cbn -[String.prefix]. intros [Hprefix Hs]%orb_false_iff.
  by rewrite Hprefix, (IH Hs).
Qed.



(** X20: [get_python_dll] runs no tool but [ldd] and [ldconfig -p], in
    that order, or [otool -L] alone, and passes them the executable as it
    was given. *)
Theorem get_python_dll_commands (h : Host) (tools : Tool) (exe : string) :
  fst (get_python_dll h tools exe)
  ∈ [[];
     [["ldd"; exe]];
     [["ldd"; exe]; ["ldconfig"; "-p"]];
     [["otool"; "-L"; exe]]].
Proof.
  unfold get_python_dll. rewrite !elem_of_cons.
  destruct (startswith (system h) "Linux" || startswith (system h) "SunOS").
  - destruct (matching_line "libpython" _); [by right; left |].
    destruct (matching_line (libpython_name _) _); by right; right; left.
  - destruct (String.eqb (system h) "Darwin").
    + destruct (matching_line "Python" _); by do 3 right; left.
    + destruct (String.eqb (system h) "Windows"); by left.
Qed.

(** ** Building the q scripts *)

Lemma prefix_empty (s : string) : String.prefix "" s = true.
Proof. by destruct s. Qed.

(** Doubling the backslashes, one character at a time. *)
Lemma escape_String (c : ascii) (s : string) :
  replace backslash (backslash +:+ backslash) (String c s)
  = if Ascii.eqb c "\"
    then String "\" (String "\" (replace backslash (backslash +:+ backslash) s))
    else String c (replace backslash (backslash +:+ backslash) s).
Proof.
  unfold replace, backslash. cbn -[ascii_dec].
  destruct (Ascii.eqb_spec c "\") as [-> | Hne].
  - destruct (ascii_dec "\" "\") as [_ | Hne]; [| done].
    by rewrite prefix_empty.
  - by destruct (ascii_dec "\" c) as [<- | _].
Qed.

Lemma unescape_plain (c : ascii) (t : string) :
  Ascii.eqb c "\" = false ->
  unescape (String c t) = String c (unescape t).
Proof. intros Hc. destruct t; [done |]. cbn. by rewrite Hc. Qed.

Lemma unescape_escape (s : string) :
  unescape (replace backslash (backslash +:+ backslash) s) = s.
Proof.
  induction s as [| c s IH]; [done |].
  rewrite escape_String. destruct (Ascii.eqb c "\") eqn:Hc.
  - apply Ascii.eqb_eq in Hc as ->. cbn. by rewrite IH.
  - by rewrite unescape_plain, IH.
Qed.

(** X21: [finalize_options] of [build_qlib] sets [build_lib] to
    [<build_base>/qlib] whatever was given for it, and doubles every
    backslash of the path of the installed executable: read with doubled
    backslashes taken as one, [pyq_executable] is [<install_dir>/pyq]
    again, and it is that path itself when the path has no backslash. *)
Theorem build_qlib_pyq_executable (h : Host) (conf : Config.t)
    (build : Build.t) (self : BuildQLib.options) (base dir : string) :
  undefined_or (BuildQLib.given_build_base self) (Build.build_base build)
  = Some base ->
  exists qlib,
    BuildQLib.finalize_options h conf build (Some dir) self = inr qlib /\
    BuildQLib.build_lib qlib = path_join h base "qlib" /\
    unescape (BuildQLib.pyq_executable qlib) = path_join h dir "pyq" /\
    (contains backslash (path_join h dir "pyq") = false ->
     BuildQLib.pyq_executable qlib = path_join h dir "pyq").
Proof.
  intros Hbase. unfold BuildQLib.finalize_options. rewrite Hbase. cbn.
  eexists. split; [reflexivity |]. cbn. split; [done |]. split.
  - apply unescape_escape.
  - apply replace_absent.
Qed.


Lemma build_qlib_pyq_executable_witness :
  exists qlib,
    BuildQLib.finalize_options windows64 windows_conf windows_build
      (Some "C:\Python36\Scripts") lib_option = inr qlib /\
    BuildQLib.build_lib qlib = "build\qlib" /\
    BuildQLib.pyq_executable qlib = "C:\\Python36\\Scripts\\pyq" /\
    unescape (BuildQLib.pyq_executable qlib) = "C:\Python36\Scripts\pyq".
Proof.
  destruct (build_qlib_pyq_executable windows64 windows_conf windows_build
              lib_option "build" "C:\Python36\Scripts" eq_refl)
    as (qlib & Hfinal & _ & Hread & _).
  exists qlib. split; [exact Hfinal |].
  cbn in Hfinal. injection Hfinal as <-. by repeat split.
Defined.

(** Once a source is among the files of a target, registering it again
    is a no-op. *)
Lemma add_data_file_noop (data_files : DataFiles) (target source : string)
    (f : list string) :
  files_for data_files target = Some f ->
  source ∈ f ->
  add_data_file data_files target source = data_files.
Proof.
  induction data_files as [| [t g] rest IH]; cbn; [done |].
  destruct (String.eqb t target).
  - intros [= ->] Hin. by rewrite bool_decide_eq_true_2.
  - intros Hfiles Hin. by rewrite IH.
Qed.

Lemma files_for_added (data_files : DataFiles) (target source : string) :
  exists f,
    files_for (add_data_file data_files target source) target = Some f /\
    source ∈ f.
Proof.
  induction data_files as [| [t g] rest IH]; cbn.
  - rewrite String.eqb_refl. exists [source]. split; [done | by left].
  - destruct (String.eqb t target) eqn:Ht; cbn; rewrite Ht; [| exact IH].
    eexists. split; [reflexivity |].
    case_bool_decide as Hin; [done |].
    apply elem_of_app. right. by left.
Qed.

Lemma files_for_kept (data_files : DataFiles)
    (target target' source x : string) (f : list string) :
  files_for data_files target = Some f ->
  x ∈ f ->
  exists f',
    files_for (add_data_file data_files target' source) target = Some f' /\
    x ∈ f'.
Proof.
  induction data_files as [| [t g] rest IH]; cbn; [done |].
  destruct (String.eqb t target') eqn:Ht'; cbn.
  - destruct (String.eqb t target); [| by eauto].
    intros [= ->] Hin. eexists. split; [reflexivity |].
    case_bool_decide; [done |]. apply elem_of_app. by left.
  - destruct (String.eqb t target); [by eauto | exact IH].
Qed.

Lemma add_data_file_again (data_files : DataFiles) (target source : string) :
  add_data_file (add_data_file data_files target source) target source
  = add_data_file data_files target source.
Proof.
  destruct (files_for_added data_files target source) as (f & Hfiles & Hin).
  by apply (add_data_file_noop _ _ _ f).
Qed.


Lemma build_scripts_actions (h : Host) (self : BuildQLib.t)
    (scripts : list string) (acc : list FileAction * DataFiles) :
  BuildQLib.build_scripts h self scripts acc
  = (fst acc ++ flat_map (qlib_actions h self) scripts,
     match scripts with
     | [] => snd acc
     | _ :: _ => add_data_file (snd acc) "q" (BuildQLib.pyq_config_file h self)
     end).
Proof.
  revert acc. induction scripts as [| script rest IH]; intros [acts df]; cbn.
  - by rewrite app_nil_r.
  - rewrite IH. cbn. rewrite <- app_assoc. f_equal.
    destruct rest; [done |]. apply add_data_file_again.
Qed.

(** X22: [run] of [build_qlib] makes the build directory, then for every
    script writes the configuration script and copies the script from
    [src/pyq] into the build directory; however many scripts there are,
    the configuration script is registered once, under the target [q], and
    with no script nothing is registered. *)
Theorem build_qlib_run (h : Host) (self : BuildQLib.t)
    (scripts : list string) (data_files : DataFiles) :
  fst (BuildQLib.run h self scripts data_files)
  = Mkpath (BuildQLib.build_lib self)
    :: flat_map (qlib_actions h self) scripts
  /\ copies (fst (BuildQLib.run h self scripts data_files))
     = map (fun script =>
              (path_join h (path_join h "src" "pyq") script,
               path_join h (BuildQLib.build_lib self) script))
         scripts
  /\ snd (BuildQLib.run h self scripts data_files)
     = match scripts with
       | [] => data_files
       | _ :: _ =>
           add_data_file data_files "q" (BuildQLib.pyq_config_file h self)
       end.
Proof.
  unfold BuildQLib.run. rewrite build_scripts_actions. cbn [fst snd app].
  repeat split.
  unfold copies. cbn [omap list_omap].
  induction scripts as [| script rest IH]; [done |].
  cbn. by rewrite <- IH.
Qed.

(** ** Building the runtime extension *)

(** The data files after [build_all]: each extension's output registered
    in turn. *)
Lemma build_all_data_files (h : Host) (objs : ObjectNames) (conf : Config.t)
    (self : BuildQExt.t) (lib arch : string) (define : list Macro)
    (exts : list Extension) (acc : list Action * DataFiles) :
  BuildQExt.build_lib self = Some lib ->
  BuildQExt.define self = Some define ->
  BuildQExt.q_arch self = Some arch ->
  BuildQExt.build_all h objs conf self exts acc
  = inr (fst acc ++ flat_map (qext_actions h objs conf self lib define) exts,
         foldl (fun df ext =>
                  add_data_file df (path_join h "q" arch)
                    (path_join h lib (BuildQExt.ext_filename h ext)))
           (snd acc) exts).
Proof.
  intros Hlib Hdefine Harch. revert acc.
  induction exts as [| ext rest IH]; intros [acts df]; cbn.
  - by rewrite app_nil_r.
  - unfold BuildQExt.build_one. rewrite Hlib, Hdefine, Harch. cbn.
    rewrite IH. cbn. unfold qext_actions at 2.
    by rewrite <- !app_assoc.
Qed.

Lemma foldl_add_kept (target : string) (path_of : Extension -> string)
    (exts : list Extension) (df : DataFiles) (t x : string)
    (f : list string) :
  files_for df t = Some f ->
  x ∈ f ->
  exists f',
    files_for (foldl (fun df ext => add_data_file df target (path_of ext))
                 df exts) t = Some f' /\
    x ∈ f'.
Proof.
  revert df f. induction exts as [| ext rest IH]; intros df f Hfiles Hin.
  - by exists f.
  - cbn. destruct (files_for_kept df t target (path_of ext) x f Hfiles Hin)
      as (f1 & Hfiles1 & Hin1).
    by apply (IH _ f1).
Qed.

Lemma foldl_add_registered (target : string) (path_of : Extension -> string)
    (exts : list Extension) (df : DataFiles) (ext : Extension) :
  ext ∈ exts ->
  exists f,
    files_for (foldl (fun df ext => add_data_file df target (path_of ext))
                 df exts) target = Some f /\
    path_of ext ∈ f.
Proof.
  revert df. induction exts as [| e rest IH]; intros df Hin.
  - by apply elem_of_nil in Hin.
  - cbn. apply elem_of_cons in Hin as [-> | Hin]; [| by apply IH].
    destruct (files_for_added df target (path_of e)) as (f & Hfiles & Hf).
    by apply (foldl_add_kept _ _ _ _ _ _ f).
Qed.

(** X23: after [run] of [build_qext], the output of every extension is
    among the data files of the target [q/<q_arch>], and every file that
    was registered before, for any target, still is. *)
Theorem build_qext_registers (h : Host) (objs : ObjectNames)
    (conf : Config.t) (self : BuildQExt.t) (data_files : DataFiles)
    (lib arch : string) (define : list Macro) (exts : list Extension) :
  BuildQExt.build_lib self = Some lib ->
  BuildQExt.define self = Some define ->
  BuildQExt.q_arch self = Some arch ->
  BuildQExt.extensions self = Some exts ->
  exists actions data_files',
    BuildQExt.run h objs conf self data_files = inr (actions, data_files') /\
    (forall ext,
       ext ∈ exts ->
       exists f,
         files_for data_files' (path_join h "q" arch) = Some f /\
         path_join h lib (BuildQExt.ext_filename h ext) ∈ f) /\
    (forall t f x,
       files_for data_files t = Some f ->
       x ∈ f ->
       exists f', files_for data_files' t = Some f' /\ x ∈ f').
Proof.
  intros Hlib Hdefine Harch Hexts. unfold BuildQExt.run. rewrite Hexts. cbn.
  rewrite (build_all_data_files h objs conf self lib arch define exts
             ([], data_files) Hlib Hdefine Harch).
  eexists _, _. split; [reflexivity |]. cbn. split.
  - intros ext Hin.
    by apply (foldl_add_registered (path_join h "q" arch)
                (fun ext => path_join h lib (BuildQExt.ext_filename h ext))).
  - intros t f x Hfiles Hin.
    by apply (foldl_add_kept (path_join h "q" arch)
                (fun ext => path_join h lib (BuildQExt.ext_filename h ext))
                exts data_files t x f).
Qed.

Lemma build_qext_registers_witness :
  exists actions data_files',
    BuildQExt.run linux64 dot_o linux_conf linux_qext metadata_data_files
    = inr (actions, data_files') /\
    (exists f, files_for data_files' "q/l64" = Some f /\
               "build/qext.linux-x86_64/p.so" ∈ f) /\
    (exists f, files_for data_files' "q" = Some f /\ "src/pyq/p.k" ∈ f).
Proof.
  destruct (build_qext_registers linux64 dot_o linux_conf linux_qext
              metadata_data_files "build/qext.linux-x86_64" "l64"
              [("KXVER", Some "3"); ("KXVER2", Some "6")]
              (qext_modules linux64) eq_refl eq_refl eq_refl eq_refl)
    as (actions & data_files' & Hrun & Hnew & Hold).
  exists actions, data_files'. split; [exact Hrun |]. split.
  - apply (Hnew {| name := "p"; sources := ["src/pyq/p.c"];
                   extra_compile_args := CFLAGS linux64 |}). by left.
  - apply (Hold "q" ["src/pyq/p.k"; "src/pyq/pyq-operators.q";
                     "src/pyq/python.q"] "src/pyq/p.k");
      [reflexivity | by left].
Defined.

(** X24: the compiler actions of [run] of [build_qext]: every compilation
    is given the macros of [define], followed by [PY3K] under Python 3,
    and the include directory [src/pyq]; off Windows the compiler's options
    are never touched and every link is given exactly the link arguments of
    the configuration; no executable is linked. *)
Theorem build_qext_actions (h : Host) (objs : ObjectNames) (conf : Config.t)
    (self : BuildQExt.t) (data_files : DataFiles) (lib arch : string)
    (define : list Macro) (exts : list Extension) :
  BuildQExt.build_lib self = Some lib ->
  BuildQExt.define self = Some define ->
  BuildQExt.q_arch self = Some arch ->
  BuildQExt.extensions self = Some exts ->
  exists actions data_files',
    BuildQExt.run h objs conf self data_files = inr (actions, data_files') /\
    Forall
      (fun action =>
         match action with
         | Compile _ _ macros _ include_dirs =>
             macros
             = Some (define ++
                     if (3 <=? fst (version_info h))%nat
                     then [("PY3K", Some (pretty (fst (version_info h))
                                          +:+ pretty (snd (version_info h))))]
                     else [])
             /\ include_dirs = ["src/pyq"]
         | LinkSharedObject _ _ extra_postargs =>
             WINDOWS h = false ->
             extra_postargs = Config.extra_link_args conf
         | Initialize | RemoveCompileOption _ => WINDOWS h = true
         | LinkExecutable _ _ _ _ => False
         end)
      actions.
Proof.
  intros Hlib Hdefine Harch Hexts. unfold BuildQExt.run. rewrite Hexts. cbn.
  rewrite (build_all_data_files h objs conf self lib arch define exts
             ([], data_files) Hlib Hdefine Harch).
  eexists _, _. split; [reflexivity |]. cbn. clear Hexts.
  induction exts as [| ext rest IH]; cbn; [constructor |].
  apply Forall_app. split; [| exact IH].
  unfold qext_actions, BuildQExt.with_py3k.
  assert (forall macros : list Macro,
            (if (3 <=? fst (version_info h))%nat then define ++ macros
             else define)
            = define ++ (if (3 <=? fst (version_info h))%nat then macros
                         else [])) as Hmacros.
  { intros macros. destruct (3 <=? fst (version_info h))%nat; [done |].
    by rewrite app_nil_r. }
  destruct (WINDOWS h); cbn [app];
    repeat (apply Forall_cons; split); try apply Forall_nil; try done.
  - by rewrite Hmacros.
  - by rewrite Hmacros.
  - intros _. apply app_nil_r.
Qed.

Lemma build_qext_actions_witness :
  exists actions data_files',
    BuildQExt.run linux64 dot_o linux_conf linux_qext []
    = inr (actions, data_files') /\
    actions
    = [Compile ["src/pyq/p.c"] (Some "build/temp.linux-x86_64")
         (Some [("KXVER", Some "3"); ("KXVER2", Some "6");
                ("PY3K", Some "36")])
         ["-Wpointer-arith"; "-Werror"; "-fno-strict-aliasing"] ["src/pyq"];
       LinkSharedObject ["src/pyq/p.c.o"] "build/qext.linux-x86_64/p.so" []].
Proof.
  destruct (build_qext_actions linux64 dot_o linux_conf linux_qext []
              "build/qext.linux-x86_64" "l64"
              [("KXVER", Some "3"); ("KXVER2", Some "6")]
              (qext_modules linux64) eq_refl eq_refl eq_refl eq_refl)
    as (actions & data_files' & Hrun & _).
  exists actions, data_files'. split; [exact Hrun |].
  cbn in Hrun. by injection Hrun as <- _.
Defined.

(** ** Version tokens that the builders cannot split *)

Lemma split_on_absent (sep : ascii) (s : string) :
  contains (String sep "") s = false -> split_on sep s = [s].
Proof.
  induction s as [| c s IH]; [done |].
  cbn -[ascii_dec]. intros [Hprefix Hs]%orb_false_iff.
  destruct (Ascii.eqb_spec c sep) as [-> | Hne].
  - destruct (ascii_dec sep sep) as [_ | Hne]; [| done].
    by rewrite prefix_empty in Hprefix.
  - by rewrite (IH Hs).
Qed.

(** X25: a version token without a dot has no minor component:
    [finalize_options] of [build_qext] fails on it with an IndexError when
    the macros are not given, while [finalize_options] of [build_exe]
    succeeds on it when it is not empty and defines [KXVER] as its first
    character and [QARCH] as the q_arch. *)
Theorem kxver_token_without_dot (h : Host) (conf : Config.t)
    (build : Build.t) (modules : option (list Extension))
    (qext : BuildQExt.t) (exe : BuildExe.t) (c : ascii)
    (token base plat : string) :
  BuildQExt.define qext = None ->
  BuildExe.define exe = None ->
  undefined_or (BuildQExt.q_version qext) (Config.q_version conf)
  = Some (String c token) ->
  undefined_or (BuildExe.q_version exe) (Config.q_version conf)
  = Some (String c token) ->
  Build.build_base build = Some base ->
  Build.plat_name build = Some plat ->
  contains "." (String c token) = false ->
  BuildQExt.finalize_options h conf build modules qext = inl IndexError /\
  exists exe',
    BuildExe.finalize_options h conf build exe = inr exe' /\
    BuildExe.define exe'
    = Some [("KXVER", Some (String c ""));
            ("QARCH", undefined_or (BuildExe.q_arch exe) (Config.q_arch conf))].
Proof.
  intros Hqdef Hedef Hqver Hever Hbase Hplat Hdot.
  unfold BuildQExt.finalize_options, BuildExe.finalize_options.
  rewrite Hqdef, Hedef, Hqver, Hever, Hbase, Hplat.
  destruct (undefined_or_Some (BuildQExt.build_base qext) base) as [qb ->].
  destruct (undefined_or_Some (BuildQExt.plat_name qext) plat) as [qp ->].
  destruct (undefined_or_Some (BuildExe.build_base exe) base) as [eb ->].
  cbn [or_discover]. unfold BuildQExt.kxver_macros.
  cbn [need bind ret]. rewrite (split_on_absent "." _ Hdot). split.
  - by destruct (BuildQExt.build_lib qext), (BuildQExt.build_temp qext).
  - destruct (BuildExe.build_exe exe); cbn; eexists; by split.
Qed.


Lemma kxver_token_without_dot_witness :
  BuildQExt.finalize_options linux64 q3_conf linux_build
    (Some (qext_modules linux64)) BuildQExt.initial = inl IndexError /\
  exists exe',
    BuildExe.finalize_options linux64 q3_conf linux_build BuildExe.initial
    = inr exe' /\
    BuildExe.define exe' = Some [("KXVER", Some "3"); ("QARCH", Some "l64")].
Proof.
  apply (kxver_token_without_dot linux64 q3_conf linux_build
           (Some (qext_modules linux64)) BuildQExt.initial BuildExe.initial
           "3" "" "build" "linux-x86_64"); reflexivity.
Defined.

(** ** The version of the distribution *)

Lemma prefix_app (a b : string) : String.prefix a (a +:+ b) = true.
Proof.
  induction a as [| c a IH]; [apply prefix_empty |].
  rewrite append_String. cbn -[ascii_dec].
  by destruct (ascii_dec c c).
Qed.

(** X26: when [get_version] returns a version, either it read the version
    from the version file, outside a release and outside a git checkout,
    and left the files as they were, or the version starts with [VERSION]
    and the version file has been written with it. *)
Theorem get_version_outcome (is_release git_dir : bool) (git : Result string)
    (exec_version : string -> Result string) (files files' : gmap string string)
    (version : string) :
  get_version is_release git_dir git exec_version files
  = inr (version, files') ->
  (is_release = false /\ git_dir = false /\ files' = files /\
   exists text,
     files !! VERSION_FILE = Some text /\ exec_version text = inr version)
  \/ (startswith version VERSION = true /\
      files' = <[VERSION_FILE := VERSION_PY version]> files).
Proof.
  unfold get_version, unknown_version, dev_version.
  destruct is_release; [intros [= <- <-]; by right |].
  destruct git_dir.
  - destruct git as [[] | out]; try discriminate.
    + intros [= <- <-]. right. split; [apply prefix_app | done].
    + intros [= <- <-]. right. split; [| done].
      destruct (split_on "-" (strip out)) as [| ? [| ? [| ? [| ? ?]]]];
        apply prefix_app.
  - destruct (files !! VERSION_FILE) as [text |] eqn:Hfile.
    + destruct (exec_version text) as [e | v] eqn:Hexec; [discriminate |].
      intros [= <- <-]. left. repeat split. by exists text.
    + intros [= <- <-]. right. split; [apply prefix_app | done].
Qed.

Lemma get_version_outcome_witness :
  startswith "4.1.2" VERSION = true /\
  (<[VERSION_FILE := VERSION_PY "4.1.2"]> ∅ : gmap string string)
  = <[VERSION_FILE := VERSION_PY "4.1.2"]> ∅.
Proof.
  destruct (get_version_outcome true false (inr "") (fun _ => inr "") ∅
              (<[VERSION_FILE := VERSION_PY "4.1.2"]> ∅) "4.1.2" eq_refl)
    as [(Hrelease & _) | Hwritten].
  - discriminate Hrelease.
  - exact Hwritten.
Defined.




(** ** The description of the distribution *)







(** ** The version macros of the two builders *)

(** X29: for a version token with at least two components between its
    dots, [finalize_options] of [build_qext], when the macros are not given,
    succeeds and defines [KXVER] as the first component and [KXVER2] as the
    second, however long they are. *)
Theorem build_qext_kxver (h : Host) (conf : Config.t) (build : Build.t)
    (modules : option (list Extension)) (qext : BuildQExt.t)
    (token base plat major minor : string) (more : list string) :
  BuildQExt.define qext = None ->
  undefined_or (BuildQExt.q_version qext) (Config.q_version conf)
  = Some token ->
  Build.build_base build = Some base ->
  Build.plat_name build = Some plat ->
  split_on "." token = major :: minor :: more ->
  exists qext',
    BuildQExt.finalize_options h conf build modules qext = inr qext' /\
    BuildQExt.define qext'
    = Some [("KXVER", Some major); ("KXVER2", Some minor)].
Proof.
  intros Hdef Hver Hbase Hplat Hsplit.
  unfold BuildQExt.finalize_options.
  rewrite Hdef, Hver, Hbase, Hplat.
  destruct (undefined_or_Some (BuildQExt.build_base qext) base) as [qb ->].
  destruct (undefined_or_Some (BuildQExt.plat_name qext) plat) as [qp ->].
  cbn [or_discover]. unfold BuildQExt.kxver_macros.
  cbn [need bind ret]. rewrite Hsplit.
  destruct (BuildQExt.build_lib qext), (BuildQExt.build_temp qext); cbn;
    eexists; by split.
Qed.

Lemma build_qext_kxver_witness :
  exists qext',
    BuildQExt.finalize_options linux64 q10_conf linux_build
      (Some (qext_modules linux64)) BuildQExt.initial = inr qext' /\
    BuildQExt.define qext' = Some [("KXVER", Some "10"); ("KXVER2", Some "")].
Proof.
  apply (build_qext_kxver linux64 q10_conf linux_build
           (Some (qext_modules linux64)) BuildQExt.initial
           "10." "build" "linux-x86_64" "10" "" []); reflexivity.
Defined.

(** X30: for a version token that is not empty, [finalize_options] of
    [build_exe], when the macros are not given, succeeds and defines
    [KXVER] as the first character of the token and [QARCH] as the q_arch;
    the first character is the first component between the dots of the
    token when that component is one character long. *)
Theorem build_exe_kxver (h : Host) (conf : Config.t) (build : Build.t)
    (exe : BuildExe.t) (c : ascii) (token base : string) :
  BuildExe.define exe = None ->
  undefined_or (BuildExe.q_version exe) (Config.q_version conf)
  = Some (String c token) ->
  Build.build_base build = Some base ->
  (exists exe',
     BuildExe.finalize_options h conf build exe = inr exe' /\
     BuildExe.define exe'
     = Some [("KXVER", Some (String c ""));
             ("QARCH",
              undefined_or (BuildExe.q_arch exe) (Config.q_arch conf))]) /\
  (forall major,
     major_component (String c token) = Some major ->
     String.length major = 1%nat ->
     major = String c "").
Proof.
  intros Hdef Hver Hbase. split.
  - unfold BuildExe.finalize_options. rewrite Hdef, Hver, Hbase.
    destruct (undefined_or_Some (BuildExe.build_base exe) base) as [eb ->].
    cbn [or_discover]. unfold BuildExe.kxver_macros. cbn [need bind ret].
    destruct (BuildExe.build_exe exe); cbn; eexists; by split.
  - intros major Hmajor Hone.
    pose proof (first_char_major _ _ Hmajor Hone) as Hfirst.
    cbn in Hfirst. by injection Hfirst as <-.
Qed.

Lemma build_exe_kxver_witness :
  (exists exe',
     BuildExe.finalize_options linux64 linux_conf linux_build BuildExe.initial
     = inr exe' /\
     BuildExe.define exe' = Some [("KXVER", Some "3"); ("QARCH", Some "l64")])
  /\ "3" = "3".
Proof.
  destruct (build_exe_kxver linux64 linux_conf linux_build BuildExe.initial
              "3" ".6" "build" eq_refl eq_refl eq_refl) as [Hrun Hmajor].
  split; [exact Hrun |].
  apply (Hmajor "3"); reflexivity.
Defined.
